(** * ml-xgboost: the JavaScript facade over the compiled XGBoost module

    A shallow embedding of [src/loadXGBoost.js].  The file wraps a compiled
    (WebAssembly) XGBoost build: [loadXGBoost(xgboost)] receives the Emscripten
    module object and returns the class [XGBoost] whose methods marshal
    matrices into linear memory and call the exported C functions.

    - JavaScript values, thrown errors and plain objects are inductive data;
      numbers are IEEE binary64 floats, as in the language.
    - The Emscripten module is an interface ([XGBoostWasm]): the source takes
      it as the argument [xgboost], so the embedding is parametric in it.
    - What the facade imports from the JavaScript runtime and from [ml-matrix]
      is a second interface ([JSEnv]).
    - Methods are written in a state-and-exception monad; a thrown error keeps
      the state reached so far, as a JavaScript [throw] does.
    - An instance is the record of its three fields.  [toJSON] and [load]
      hand the options object on by reference; here it is handed on by
      value, which shows no difference: the only write [load] makes to it is
      the loop of lines 62-67, and that loop leaves an object of strings as
      it is ([stringify_options_again]). *)

From Stdlib Require Import ZArith String Ascii List Bool Lia Floats.
From Stdlib Require Import DecimalString Permutation.
Import ListNotations.

Local Open Scope string_scope.
Local Open Scope list_scope.

(** ** JavaScript values and errors *)

(** The primitive values that occur as option values and as the [name] tag. *)
Inductive value : Type :=
| VUndefined
| VNull
| VBoolean (b : bool)
| VNumber (x : float)
| VString (s : string).

(** The error classes the facade (and the runtime under it) throws. *)
Inductive exn : Type :=
| Error (message : string)
| RangeError (message : string)
| TypeError (message : string).

Inductive result (A : Type) : Type :=
| Ok (a : A)
| Throw (e : exn).
Arguments Ok {A} a.
Arguments Throw {A} e.

(** [v === 'literal'] for a string literal: strict equality never coerces. *)
Definition strict_eq_string (v : value) (lit : string) : bool :=
  match v with VString s => String.eqb s lit | _ => false end.

(** ** Plain objects

    An object is the list of its own enumerable properties in property order
    (insertion order; the option keys of XGBoost are never array indices). *)
Definition object : Type := list (string * value).

Fixpoint Object_get (o : object) (key : string) : value :=
  match o with
  | [] => VUndefined
  | (k, v) :: o' => if String.eqb k key then v else Object_get o' key
  end.

(** [o[key] = v]: an existing property keeps its place, a new one goes last. *)
Fixpoint Object_set (o : object) (key : string) (v : value) : object :=
  match o with
  | [] => [(key, v)]
  | (k, w) :: o' =>
      if String.eqb k key then (k, v) :: o' else (k, w) :: Object_set o' key v
  end.

Definition Object_keys (o : object) : list string := map fst o.

(** [Object.assign(target, source)]: every property of [source] is set on
    [target], in order. *)
Definition Object_assign1 (target source : object) : object :=
  fold_left (fun t kv => Object_set t (fst kv) (snd kv)) source target.

(** [Object.assign({}, a, b)]. *)
Definition Object_assign (a b : object) : object :=
  Object_assign1 (Object_assign1 [] a) b.

(** ** Integers of typed arrays *)

(** Storing an integer into a [Uint8Array] keeps it modulo 256. *)
Definition to_uint8 (z : Z) : Z := (z mod 256)%Z.

(** Reading a byte through the signed view ([HEAP8], type ['i8']). *)
Definition to_int8 (z : Z) : Z := ((z + 128) mod 256 - 128)%Z.

(** [n.toString()] for the size of a collection (a non-negative integer). *)
Definition size_toString (n : nat) : string :=
  NilZero.string_of_uint (Nat.to_uint n).

(** ** [Set] of numbers

    [new Set(array)] inserts the elements in order; membership is decided by
    SameValueZero, which identifies [NaN] with itself and [+0] with [-0]. *)
Definition sameValueZero (x y : float) : bool :=
  (PrimFloat.eqb x y || (PrimFloat.is_nan x && PrimFloat.is_nan y))%bool.

Definition Set_has (s : list float) (x : float) : bool :=
  existsb (sameValueZero x) s.

Definition Set_add (s : list float) (x : float) : list float :=
  if Set_has s x then s else s ++ [x].

Definition Set_new (xs : list float) : list float := fold_left Set_add xs [].

Definition Set_size (xs : list float) : nat := length (Set_new xs).

(** ** The matrix of [ml-matrix] *)

Record Matrix : Type := mkMatrix {
  rows : nat;
  columns : nat;
  data : list (list float)
}.

Definition getRow (X : Matrix) (i : nat) : list float := nth i (data X) [].

Definition to1DArray (X : Matrix) : list float := concat (data X).

(** ** What the facade takes from the runtime

    [Number_toString] is [Number.prototype.toString];
    [Float32_bytes xs] is [new Uint8Array(Float32Array.from(xs).buffer)], the
    bytes of the single-precision copies; [checkMatrix] is
    [Matrix.checkMatrix] of [ml-matrix], which returns the matrix or throws. *)
Class JSEnv : Type := {
  Number_toString : float -> string;
  Float32_bytes : list float -> list Z;
  checkMatrix : list (list float) -> result Matrix
}.

(** ** The Emscripten module [xgboost]

    Its state is the linear memory ([HEAP], one unsigned byte per address) and
    whatever else the compiled library keeps ([lib]).  A model handle is
    [this.model]: [undefined] ([None]) before anything was trained or loaded,
    an integer afterwards. *)
Record Store (L : Type) : Type := mkStore {
  HEAP : Z -> Z;
  lib : L
}.
Arguments mkStore {L} HEAP lib.
Arguments HEAP {L} s _.
Arguments lib {L} s.

Definition handle : Type := option Z.

(** The functions obtained by [xgboost.cwrap] (lines 5-12), [_malloc] and
    [_free].  Each may read and write the whole store. *)
Class XGBoostWasm (L : Type) : Type := {
  create_model : Store L -> list Z -> list Z -> Z -> Z -> Store L * Z;
  free_memory_model : Store L -> handle -> Store L;
  set_param : Store L -> handle -> string -> value -> Store L;
  train_full_model : Store L -> handle -> value -> Store L;
  predict_one : Store L -> handle -> list Z -> Z -> Store L * float;
  save_model : Store L -> handle -> Store L * Z;
  get_file_content : Store L -> Z -> Z -> Store L;
  load_model : Store L -> Z -> Z -> Store L * Z;
  _malloc : Store L -> Z -> Store L * Z;
  _free : Store L -> Z -> Store L
}.

(** [xgboost.HEAPU8.set(array, offset)]: the bytes of [array] overwrite the
    memory from [offset] on.  (The bounds of the memory are not modelled: an
    allocated block lies inside it.) *)
Definition HEAPU8_set {L} (st : Store L) (array : list Z) (offset : Z) : Store L :=
  mkStore
    (fun p =>
       if ((offset <=? p) && (p <? offset + Z.of_nat (length array)))%Z%bool
       then nth (Z.to_nat (p - offset)) array 0%Z
       else HEAP st p)
    (lib st).

(** [xgboost.getValue(p, 'i8')]. *)
Definition getValue_i8 {L} (st : Store L) (p : Z) : Z := to_int8 (HEAP st p).

(** The foreign calls a method makes, in the order it makes them. *)
Inductive Call : Type :=
| Ccreate_model (X y : list Z) (rows cols : Z)
| Cfree_memory_model (h : handle)
| Cset_param (h : handle) (name : string) (v : value)
| Ctrain_full_model (h : handle) (iterations : value)
| Cpredict_one (h : handle) (row : list Z) (cols : Z)
| Csave_model (h : handle)
| Cget_file_content (offset size : Z)
| Cload_model (offset size : Z)
| Cmalloc (size : Z)
| Cfree (offset : Z).

Record World (L : Type) : Type := mkWorld {
  store : Store L;
  calls : list Call
}.
Arguments mkWorld {L} store calls.
Arguments store {L} w.
Arguments calls {L} w.

(** ** State and exceptions *)

Definition M (St A : Type) : Type := St -> result A * St.

Definition ret {St A} (a : A) : M St A := fun s => (Ok a, s).

Definition throw {St A} (e : exn) : M St A := fun s => (Throw e, s).

Definition bind {St A B} (m : M St A) (k : A -> M St B) : M St B :=
  fun s =>
    match m s with
    | (Ok a, s') => k a s'
    | (Throw e, s') => (Throw e, s')
    end.

Declare Scope js_scope.
Delimit Scope js_scope with js.
Notation "x <- m ;; k" := (bind m (fun x => k))
  (at level 61, m at next level, right associativity) : js_scope.
Notation "m ;; k" := (bind m (fun _ => k))
  (at level 61, right associativity) : js_scope.
Local Open Scope js_scope.

Definition lift_result {St A} (r : result A) : M St A :=
  match r with Ok a => ret a | Throw e => throw e end.

(** [for (x of xs) body(x)]. *)
Fixpoint for_each {St A} (xs : list A) (body : A -> M St unit) : M St unit :=
  match xs with
  | [] => ret tt
  | x :: xs' => body x ;; for_each xs' body
  end.

(** [for (i = 0; i < n; ++i) out[i] = body(i)], from index [i0]. *)
Fixpoint for_collect {St A} (n i0 : nat) (body : nat -> M St A) : M St (list A) :=
  match n with
  | O => ret []
  | S n' => a <- body i0 ;; rest <- for_collect n' (S i0) body ;; ret (a :: rest)
  end.

(** ** The serialized model

    The object [toJSON] returns and [load] receives:
    [{name, model, options}]. *)
Module Json.
Record t : Type := mk {
  name : value;
  model : list Z;
  options : object
}.
End Json.

(** [value.toString()]: a method call, so it throws on [undefined] and
    [null]. *)
Definition toString {env : JSEnv} (v : value) : result string :=
  match v with
  | VUndefined => Throw (TypeError "Cannot read property 'toString' of undefined")
  | VNull => Throw (TypeError "Cannot read property 'toString' of null")
  | VBoolean b => Ok (if b then "true" else "false")
  | VNumber x => Ok (Number_toString x)
  | VString s => Ok s
  end.

(** The conversion a template literal applies: it never throws on these
    values. *)
Definition template {env : JSEnv} (v : value) : string :=
  match v with
  | VUndefined => "undefined"
  | VNull => "null"
  | VBoolean b => if b then "true" else "false"
  | VNumber x => Number_toString x
  | VString s => s
  end.

(** Lines 14-24. *)
#[warnings="-inexact-float"]
Definition defaultOptions : object :=
  [ ("booster", VString "gbtree");
    ("objective", VString "reg:linear");
    ("max_depth", VNumber 5%float);
    ("eta", VNumber 0.1%float);
    ("min_child_weight", VNumber 1%float);
    ("subsample", VNumber 0.5%float);
    ("colsample_bytree", VNumber 1%float);
    ("silent", VNumber 1%float);
    ("iterations", VNumber 200%float) ].

(** An instance of the class: the three fields the methods use.
    [checkLabels] stays [undefined] on the load path. *)
Record XGBoost : Type := mkXGBoost {
  checkLabels : option bool;
  options : object;
  model : handle
}.

(** The first constructor argument: the literal [true] or an options
    object. *)
Inductive ctor_options : Type :=
| OTrue
| OObject (o : object).

(** Truthiness of [this.model]. *)
Definition truthy_handle (h : handle) : bool :=
  match h with
  | None => false
  | Some z => negb (z =? 0)%Z
  end.

(** Truthiness of [this.checkLabels]. *)
Definition truthy_flag (c : option bool) : bool :=
  match c with
  | None => false
  | Some b => b
  end.

(** Lines 62-67: every own key but ['iterations'] is overwritten with the
    string of its value; the first [undefined] or [null] value throws. *)
Fixpoint stringify_options {env : JSEnv} (keys : list string) (o : object)
  : result object :=
  match keys with
  | [] => Ok o
  | key :: keys' =>
      if String.eqb key "iterations" then stringify_options keys' o
      else match toString (Object_get o key) with
           | Ok s => stringify_options keys' (Object_set o key (VString s))
           | Throw e => Throw e
           end
  end.

Section LoadXGBoost.

Context {L : Type} {xgboost : XGBoostWasm L} {env : JSEnv}.

(** *** Effects on the world *)

(** A call of an exported function: it transforms the store and is logged. *)
Definition foreign {A} (c : Call) (f : Store L -> Store L * A) : M (World L) A :=
  fun w => let (st, a) := f (store w) in (Ok a, mkWorld st (calls w ++ [c])).

Definition foreign_ (c : Call) (f : Store L -> Store L) : M (World L) unit :=
  foreign c (fun st => (f st, tt)).

(** A write to, or a read of, the linear memory from JavaScript. *)
Definition memory_write (f : Store L -> Store L) : M (World L) unit :=
  fun w => (Ok tt, mkWorld (f (store w)) (calls w)).

Definition memory_read {A} (f : Store L -> A) : M (World L) A :=
  fun w => (Ok (f (store w)), w).

(** *** The instance under construction or under a method call *)

Record Self : Type := mkSelf {
  this : XGBoost;
  world : World L
}.

Definition on_world {A} (m : M (World L) A) : M Self A :=
  fun s => let (r, w) := m (world s) in (r, mkSelf (this s) w).

Definition get_this : M Self XGBoost := fun s => (Ok (this s), s).

Definition set_this_options (o : object) : M Self unit :=
  fun s => (Ok tt, mkSelf (mkXGBoost (checkLabels (this s)) o (model (this s))) (world s)).

Definition set_this_model (h : handle) : M Self unit :=
  fun s => (Ok tt, mkSelf (mkXGBoost (checkLabels (this s)) (options (this s)) h) (world s)).

(** *** constructor (lines 45-68) *)

Definition constructor (opts : ctor_options) (mdl : option Json.t)
  : M (World L) XGBoost :=
  match opts with
  | OTrue =>
      match mdl with
      | None => throw (TypeError "Cannot read property 'model' of undefined")
      | Some m =>
          let array := map to_uint8 (Json.model m) in
          let len := Z.of_nat (length array) in
          offset <- foreign (Cmalloc len) (fun st => _malloc st len) ;;
          memory_write (fun st => HEAPU8_set st array offset) ;;
          h <- foreign (Cload_model offset len) (fun st => load_model st offset len) ;;
          foreign_ (Cfree offset) (fun st => _free st offset) ;;
          if (h =? 0)%Z then throw (Error "Error while loading the model!")
          else
            o <- lift_result (stringify_options (Object_keys (Json.options m)) (Json.options m)) ;;
            ret (mkXGBoost None o (Some h))
      end
  | OObject o =>
      let cl := strict_eq_string (Object_get o "objective") "multi:softmax" in
      let merged := Object_assign defaultOptions o in
      o' <- lift_result (stringify_options (Object_keys merged) merged) ;;
      ret (mkXGBoost (Some cl) o' None)
  end.

(** *** train (lines 75-100) *)

Definition train (trainingSet : list (list float)) (trainingValues : list float)
  : M Self unit :=
  b <- get_this ;;
  (if truthy_flag (checkLabels b)
   then set_this_options
          (Object_set (options b) "num_class"
             (VString (size_toString (Set_size trainingValues))))
   else ret tt) ;;
  X <- lift_result (checkMatrix trainingSet) ;;
  let nrows := Z.of_nat (rows X) in
  let ncols := Z.of_nat (columns X) in
  let flattenData := to1DArray X in
  let Xb := Float32_bytes flattenData in
  let yb := Float32_bytes trainingValues in
  h <- on_world (foreign (Ccreate_model Xb yb nrows ncols)
                   (fun st => create_model st Xb yb nrows ncols)) ;;
  set_this_model (Some h) ;;
  b <- get_this ;;
  let variables := Object_keys (options b) in
  for_each variables
    (fun variable =>
       if String.eqb variable "iterations" then ret tt
       else
         b <- get_this ;;
         let v := Object_get (options b) variable in
         on_world (foreign_ (Cset_param (model b) variable v)
                     (fun st => set_param st (model b) variable v))) ;;
  b <- get_this ;;
  let iterations := Object_get (options b) "iterations" in
  on_world (foreign_ (Ctrain_full_model (model b) iterations)
              (fun st => train_full_model st (model b) iterations)).

(** *** predict (lines 107-116) *)

Definition predict (toPredict : list (list float)) : M Self (list float) :=
  Xtest <- lift_result (checkMatrix toPredict) ;;
  for_collect (rows Xtest) 0
    (fun i =>
       let current := getRow Xtest i in
       b <- get_this ;;
       let row := Float32_bytes current in
       let ncols := Z.of_nat (columns Xtest) in
       on_world (foreign (Cpredict_one (model b) row ncols)
                   (fun st => predict_one st (model b) row ncols))).

(** *** toJSON (lines 122-143) *)

Definition toJSON : M Self Json.t :=
  b <- get_this ;;
  if negb (truthy_handle (model b)) then throw (Error "No model trained to save")
  else
    size <- on_world (foreign (Csave_model (model b))
                        (fun st => save_model st (model b))) ;;
    if (size =? -1)%Z
    then throw (Error "Error while saving the model, please report this error")
    else
      offset <- on_world (foreign (Cmalloc size) (fun st => _malloc st size)) ;;
      (* new Uint8Array(size) refuses a negative length *)
      (if (size <? 0)%Z then throw (RangeError "Invalid typed array length")
       else ret tt) ;;
      on_world (memory_write
                  (fun st => HEAPU8_set st (repeat 0%Z (Z.to_nat size)) offset)) ;;
      on_world (foreign_ (Cget_file_content offset size)
                  (fun st => get_file_content st offset size)) ;;
      array <- for_collect (Z.to_nat size) 0
                 (fun i => on_world
                             (memory_read
                                (fun st => getValue_i8 st (offset + Z.of_nat i)%Z))) ;;
      on_world (foreign_ (Cfree offset) (fun st => _free st offset)) ;;
      b <- get_this ;;
      ret (Json.mk (VString "ml-xgboost") array (options b)).

(** *** static load (lines 150-156) *)

Definition load (mdl : Json.t) : M (World L) XGBoost :=
  if negb (strict_eq_string (Json.name mdl) "ml-xgboost")
  then throw (RangeError ("Invalid model: " ++ template (Json.name mdl)))
  else constructor OTrue (Some mdl).

(** *** free (lines 165-167) *)

Definition free : M Self unit :=
  b <- get_this ;;
  on_world (foreign_ (Cfree_memory_model (model b))
              (fun st => free_memory_model st (model b))).

(** Running a method on an instance in a world. *)
Definition call {A} (m : M Self A) (b : XGBoost) (w : World L)
  : result A * XGBoost * World L :=
  let (r, s) := m (mkSelf b w) in (r, this s, world s).

End LoadXGBoost.

(** ** Vocabulary of the statements *)

Definition not_iterations (k : string) : bool := negb (String.eqb k "iterations").

(** The keys [train] forwards: all own keys but ['iterations'], in order. *)
Definition forwarded (o : object) : list string :=
  filter not_iterations (Object_keys o).

(** The options [train] works with: those of the instance, with [num_class]
    written from the labels when [checkLabels] is set (lines 76-80). *)
Definition train_options (b : XGBoost) (trainingValues : list float) : object :=
  if truthy_flag (checkLabels b)
  then Object_set (options b) "num_class"
         (VString (size_toString (Set_size trainingValues)))
  else options b.

(** [undefined] and [null]: the values without a [toString] method. *)
Definition nullish (v : value) : bool :=
  match v with
  | VUndefined | VNull => true
  | _ => false
  end.


(** A set built by insertion: each element was absent when it went in, so no
    two elements are the same value. *)
Inductive Distinct : list float -> Prop :=
| Distinct_nil : Distinct []
| Distinct_snoc (s : list float) (x : float) :
    Distinct s -> Set_has s x = false -> Distinct (s ++ [x]).

(** [s] lists the distinct values of [ys]. *)
Definition distinct_values_of (ys s : list float) : Prop :=
  Distinct s /\
  (forall y, In y ys -> Set_has s y = true) /\
  (forall x, In x s -> In x ys).

(** *** The documented ranges, in the words of the specification

    [maxDepth: int>0, learningRate: float in (0,1], minChildWeight: float>=0,
    subsampleFraction: float in (0,1], colsampleFraction: float in (0,1],
    iterations: int>0], read on the option keys of the facade ([max_depth],
    [eta], [min_child_weight], [subsample], [colsample_bytree],
    [iterations]) after the defaults are filled in. *)







(** The calls [train] may make: [create_model], [set_param] for a key other
    than ['iterations'], and the training call. *)
Definition train_call (c : Call) : bool :=
  match c with
  | Ccreate_model _ _ _ _ => true
  | Cset_param _ k _ => not_iterations k
  | Ctrain_full_model _ _ => true
  | _ => false
  end.

(** The values a signed byte takes. *)
Definition is_int8 (z : Z) : Prop := (-128 <= z < 128)%Z.

(** ** What the facade expects of the compiled library *)

(** Modelled from the spec: the compiled XGBoost library behind
    [xgboost.cwrap] (the code of [save_model], [get_file_content],
    [load_model] and [predict_one]) is not among the sources.  The contract
    states what the specification asks of the serializer and the predictor:
    a handle stands for an ensemble; [predict_one] returns the score of the
    ensemble on the row; the saved file is a byte encoding of the ensemble
    from which [load_model] rebuilds a handle for the same ensemble.  The
    handles and the saved file live in the library's own state ([lib]), which
    the facade's writes to linear memory do not reach. *)
Class Faithful {L : Type} (xgboost : XGBoostWasm L) : Type := {
  ensemble : Type;
  (** in this library state the handle stands for the trained ensemble *)
  holds : L -> Z -> ensemble -> Prop;
  (** the file written by the last [save_model] is the encoding of the ensemble *)
  saved : L -> ensemble -> Prop;
  (** the saved file, as unsigned bytes *)
  encode : ensemble -> list Z;
  (** the score of one marshalled row *)
  score : ensemble -> list Z -> Z -> float;

  encode_bytes : forall t b, In b (encode t) -> (0 <= b < 256)%Z;

  predict_one_score : forall st h t row cols,
    holds (lib st) h t ->
    snd (predict_one st (Some h) row cols) = score t row cols;
  predict_one_keeps : forall st h0 row cols h t,
    holds (lib st) h t -> holds (lib (fst (predict_one st h0 row cols))) h t;

  save_model_saved : forall st h t,
    holds (lib st) h t ->
    snd (save_model st (Some h)) <> (-1)%Z ->
    snd (save_model st (Some h)) = Z.of_nat (length (encode t)) /\
    saved (lib (fst (save_model st (Some h)))) t;
  save_model_keeps : forall st h0 h t,
    holds (lib st) h t -> holds (lib (fst (save_model st h0))) h t;

  malloc_keeps : forall st n h t,
    holds (lib st) h t -> holds (lib (fst (_malloc st n))) h t;
  malloc_saved : forall st n t,
    saved (lib st) t -> saved (lib (fst (_malloc st n))) t;
  free_keeps : forall st p h t,
    holds (lib st) h t -> holds (lib (_free st p)) h t;

  get_file_content_bytes : forall st t offset i,
    saved (lib st) t ->
    (i < length (encode t))%nat ->
    HEAP (get_file_content st offset (Z.of_nat (length (encode t))))
         (offset + Z.of_nat i)%Z = nth i (encode t) 0%Z;
  get_file_content_keeps : forall st offset size h t,
    holds (lib st) h t -> holds (lib (get_file_content st offset size)) h t;

  load_model_holds : forall st t offset,
    (forall i, (i < length (encode t))%nat ->
               HEAP st (offset + Z.of_nat i)%Z = nth i (encode t) 0%Z) ->
    snd (load_model st offset (Z.of_nat (length (encode t)))) <> 0%Z /\
    holds (lib (fst (load_model st offset (Z.of_nat (length (encode t))))))
          (snd (load_model st offset (Z.of_nat (length (encode t))))) t;
  load_model_keeps : forall st offset size h t,
    holds (lib st) h t -> holds (lib (fst (load_model st offset size))) h t
}.

(** Handles that hold in [st] hold in [st']. *)
Definition keeps {L : Type} {xgboost : XGBoostWasm L} {contract : Faithful xgboost}
  (st st' : Store L) : Prop :=
  forall h t, holds (lib st) h t -> holds (lib st') h t.

(** ** A reference module

    A small executable stand-in for the compiled library and for the runtime,
    used to run the facade on concrete inputs.  A model is a list of bits;
    its saved file holds one byte per bit. *)
Module Mock.

Record Lib : Type := mkLib {
  models : list (list bool);   (* handle [h] is [models[h-1]] *)
  file : option (list bool);   (* what the last [save_model] wrote *)
  brk : Z                      (* next free address *)
}.

Definition encode (t : list bool) : list Z :=
  map (fun b : bool => if b then 255%Z else 0%Z) t.

Definition decode (bs : list Z) : list bool := map (fun z => (z =? 255)%Z) bs.

Definition lookup (l : Lib) (h : handle) : option (list bool) :=
  match h with
  | Some z => if (z <=? 0)%Z then None else nth_error (models l) (Z.to_nat (z - 1))
  | None => None
  end.

Definition count_true (t : list bool) : nat := length (filter (fun b : bool => b) t).

Definition score (t : list bool) (row : list Z) (cols : Z) : float :=
  PrimFloat.of_uint63 (Uint63.of_Z (Z.of_nat (count_true t) + cols)).

Definition push (st : Store Lib) (t : list bool) : Store Lib * Z :=
  let l := lib st in
  (mkStore (HEAP st) (mkLib (models l ++ [t]) (file l) (brk l)),
   (Z.of_nat (length (models l)) + 1)%Z).

Definition read_bytes (st : Store Lib) (offset size : Z) : list Z :=
  map (fun i => HEAP st (offset + Z.of_nat i)%Z) (seq 0 (Z.to_nat size)).

#[global] Instance wasm : XGBoostWasm Lib := {
  create_model st X y r c := push st (map (fun z => negb (z =? 0)%Z) y);
  free_memory_model st h := st;
  set_param st h k v := st;
  train_full_model st h n := st;
  predict_one st h row cols :=
    (st, match lookup (lib st) h with
         | Some t => score t row cols
         | None => PrimFloat.nan
         end);
  save_model st h :=
    match lookup (lib st) h with
    | Some t =>
        (mkStore (HEAP st) (mkLib (models (lib st)) (Some t) (brk (lib st))),
         Z.of_nat (length t))
    | None => (st, (-1)%Z)
    end;
  get_file_content st offset size :=
    match file (lib st) with
    | Some t => HEAPU8_set st (firstn (Z.to_nat size) (encode t)) offset
    | None => st
    end;
  load_model st offset size := push st (decode (read_bytes st offset size));
  _malloc st n :=
    (mkStore (HEAP st)
       (mkLib (models (lib st)) (file (lib st)) (brk (lib st) + Z.max n 1)%Z),
     brk (lib st));
  _free st p := st
}.

(** *** Printing a number

    [Number.prototype.toString]: the shortest decimal that reads back as the
    same binary64 value, laid out as ECMAScript prescribes. *)

Local Open Scope string_scope.

Definition digits (z : Z) : string := NilZero.string_of_uint (N.to_uint (Z.to_N z)).

(** [m * 2^e] as a fraction. *)
Definition frac (m e : Z) : Z * Z :=
  if (0 <=? e)%Z then (m * 2 ^ e, 1)%Z else (m, 2 ^ (- e))%Z.

(** The decimal exponent of the leading digit of [num / den]. *)
Definition log10_floor (num den : Z) : Z :=
  let k0 := ((Z.log2 num - Z.log2 den) * 30103 / 100000)%Z in
  let ge k := if (0 <=? k)%Z then (den * 10 ^ k <=? num)%Z
              else (den <=? num * 10 ^ (- k))%Z in
  if ge (k0 + 2)%Z then (k0 + 2)%Z
  else if ge (k0 + 1)%Z then (k0 + 1)%Z
  else if ge k0 then k0
  else if ge (k0 - 1)%Z then (k0 - 1)%Z
  else (k0 - 2)%Z.

(** The [n]-digit decimal [d * 10^(k-n+1)] nearest to [m * 2^e], if it reads
    back as that value. *)
Definition candidate (m e k n : Z) : option Z :=
  let q := (k - n + 1)%Z in
  let '(num, den) := frac m e in
  let up := if (0 <=? q)%Z then 1%Z else (10 ^ (- q))%Z in
  let dn := if (0 <=? q)%Z then (10 ^ q)%Z else 1%Z in
  let V := (4 * num * up)%Z in
  let half := (2 * up * (if (0 <=? e)%Z then 2 ^ e else 1))%Z in
  let narrow := ((m =? 2 ^ 52)%Z && negb (e =? -1074)%Z)%bool in
  let lo := (V - (if narrow then half / 2 else half))%Z in
  let hi := (V + half)%Z in
  let unit := (4 * den * dn)%Z in
  let dl := (V / unit)%Z in
  let dh := (dl + 1)%Z in
  let inside c := if Z.even m then ((lo <=? c)%Z && (c <=? hi)%Z)%bool
                  else ((lo <? c)%Z && (c <? hi)%Z)%bool in
  let okl := (inside (dl * unit)%Z && (0 <? dl)%Z)%bool in
  let okh := inside (dh * unit)%Z in
  let nearer_low :=
    ((V - dl * unit <? dh * unit - V)%Z
     || ((V - dl * unit =? dh * unit - V)%Z && Z.even dl))%bool in
  if (okl && okh)%bool then Some (if nearer_low then dl else dh)
  else if okl then Some dl
  else if okh then Some dh
  else None.

Fixpoint shortest (fuel : nat) (m e k n : Z) : Z * Z :=
  match fuel with
  | O => (m, 17%Z)
  | S fuel' =>
      match candidate m e k n with
      | Some d => (d, n)
      | None => shortest fuel' m e k (n + 1)%Z
      end
  end.

Fixpoint zeros (n : nat) : string :=
  match n with
  | O => ""
  | S n' => "0" ++ zeros n'
  end.

Definition positive_toString (m e : Z) : string :=
  let '(num, den) := frac m e in
  let k := log10_floor num den in
  let '(d, n) := shortest 17 m e k 1%Z in
  let '(d, k) := if (d =? 10 ^ n)%Z then (10 ^ (n - 1), k + 1)%Z else (d, k) in
  let ds := digits d in
  let p := (k + 1)%Z in
  if ((n <=? p)%Z && (p <=? 21)%Z)%bool then ds ++ zeros (Z.to_nat (p - n))
  else if ((0 <? p)%Z && (p <=? 21)%Z)%bool
       then substring 0 (Z.to_nat p) ds ++ "."
            ++ substring (Z.to_nat p) (Z.to_nat (n - p)) ds
  else if ((-6 <? p)%Z && (p <=? 0)%Z)%bool
       then "0." ++ zeros (Z.to_nat (- p)) ++ ds
  else
    let ex := if (0 <=? p - 1)%Z then "e+" ++ digits (p - 1)
              else "e-" ++ digits (1 - p) in
    if (n =? 1)%Z then ds ++ ex
    else substring 0 1 ds ++ "." ++ substring 1 (Z.to_nat (n - 1)) ds ++ ex.

Definition Number_toString (x : float) : string :=
  match Prim2SF x with
  | S754_zero _ => "0"
  | S754_infinity s => if s then "-Infinity" else "Infinity"
  | S754_nan => "NaN"
  | S754_finite s m e => (if s then "-" else "") ++ positive_toString (Z.pos m) e
  end.

(** Four bytes per number (a stand-in for the single-precision encoding). *)
Definition Float32_bytes (xs : list float) : list Z :=
  flat_map
    (fun x =>
       match Prim2SF x with
       | S754_finite s m e =>
           [to_uint8 (Z.pos m / 2 ^ 45); to_uint8 e; 0%Z; if s then 128%Z else 0%Z]
       | S754_zero s => [0%Z; 0%Z; 0%Z; if s then 128%Z else 0%Z]
       | S754_infinity s => [0%Z; 0%Z; 128%Z; if s then 255%Z else 127%Z]
       | S754_nan => [0%Z; 0%Z; 192%Z; 127%Z]
       end) xs.

(** [Matrix.checkMatrix] on an array of arrays: at least one row, at least
    one column, all rows of one length. *)
Definition checkMatrix (a : list (list float)) : result Matrix :=
  match a with
  | [] => Throw (TypeError "Data must be a 2D array with at least one element")
  | r :: _ =>
      if Nat.eqb (length r) 0
      then Throw (TypeError "Data must be a 2D array with at least one element")
      else if forallb (fun r' => Nat.eqb (length r') (length r)) a
           then Ok (mkMatrix (length a) (length r) a)
           else Throw (RangeError "Inconsistent array dimensions")
  end.

#[global] Instance env : JSEnv := {
  Number_toString := Number_toString;
  Float32_bytes := Float32_bytes;
  checkMatrix := checkMatrix
}.

Definition store0 : Store Lib := mkStore (fun _ => 0%Z) (mkLib [] None 8%Z).

Definition world0 : World Lib := mkWorld store0 [].

(** *** Sample runs *)

(** [new XGBoost({objective: 'multi:softmax'})]. *)
Definition softmax : object := [("objective", VString "multi:softmax")].

Definition fresh : XGBoost :=
  mkXGBoost (Some true)
    [ ("booster", VString "gbtree");
      ("objective", VString "multi:softmax");
      ("max_depth", VString "5");
      ("eta", VString "0.1");
      ("min_child_weight", VString "1");
      ("subsample", VString "0.5");
      ("colsample_bytree", VString "1");
      ("silent", VString "1");
      ("iterations", VNumber 200%float) ]
    None.

(** Three rows of two features, three labels of two classes. *)
Definition dataset : list (list float) :=
  [ [1; 2]; [3; 4]; [5; 6] ]%float.

Definition labels : list float := [0; 1; 1]%float.

(** [fresh.train(dataset, labels)]. *)
Definition trained_run : result unit * XGBoost * World Lib :=
  call (train dataset labels) fresh world0.

Definition trained : XGBoost := snd (fst trained_run).

Definition world1 : World Lib := snd trained_run.

(** The bits the library keeps for the trained model. *)
Definition trained_bits : list bool :=
  [false; false; false; false; true; true; false; false; true; true; false; false].

(** [trained.toJSON()]. *)
Definition saved_run : result Json.t * XGBoost * World Lib :=
  call toJSON trained world1.

Definition json : Json.t :=
  Json.mk (VString "ml-xgboost")
    [0; 0; 0; 0; -1; -1; 0; 0; -1; -1; 0; 0]%Z
    (options trained).

Definition world2 : World Lib := snd saved_run.



(** Rows of unequal length, which the matrix check refuses. *)
Definition ragged : list (list float) := [ [1; 2]; [3] ]%float.

(** [load(json)] after the sample [toJSON]. *)
Definition loaded_run : result XGBoost * World Lib := load json world2.

Definition loaded : XGBoost := mkXGBoost None (options trained) (Some 2%Z).

Definition world3 : World Lib := snd loaded_run.

(** Labels of three classes. *)
Definition three_classes : list float := [0; 1; 2]%float.

(** A module whose [load_model] refuses every buffer. *)
Definition refusing : XGBoostWasm Lib := {|
  create_model := create_model;
  free_memory_model := free_memory_model;
  set_param := set_param;
  train_full_model := train_full_model;
  predict_one := predict_one;
  save_model := save_model;
  get_file_content := get_file_content;
  load_model := fun st offset size => (st, 0%Z);
  _malloc := _malloc;
  _free := _free
|}.

(** Options with a [null] learning rate. *)
Definition null_eta : object := [ ("eta", VNull) ].

(** Out of the documented ranges: depth zero, learning rate two. *)
Definition out_of_range : object :=
  [ ("max_depth", VNumber 0%float); ("eta", VNumber 2%float) ].

End Mock.

(** * Properties *)

(** ** Objects *)

Lemma strict_eq_string_true (v : value) (lit : string) :
  strict_eq_string v lit = true <-> v = VString lit.
Proof.
  destruct v; simpl; split; intro H; try discriminate.
  - apply String.eqb_eq in H. now subst.
  - injection H as ->. apply String.eqb_refl.
Qed.

Lemma Object_get_set_same (o : object) (k : string) (v : value) :
  Object_get (Object_set o k v) k = v.
Proof.
  induction o as [|[k' w] o IH]; simpl.
  - now rewrite String.eqb_refl.
  - destruct (String.eqb k' k) eqn:E; simpl; rewrite E; auto.
Qed.

Lemma Object_get_set_other (o : object) (k k' : string) (v : value) :
  k <> k' -> Object_get (Object_set o k v) k' = Object_get o k'.
Proof.
  intro Hne. induction o as [|[k0 w] o IH]; simpl.
  - destruct (String.eqb k k') eqn:E; auto.
    apply String.eqb_eq in E. contradiction.
  - destruct (String.eqb k0 k) eqn:E; simpl.
    + apply String.eqb_eq in E. subst k0.
      destruct (String.eqb k k') eqn:E'; auto.
      apply String.eqb_eq in E'. contradiction.
    + now rewrite IH.
Qed.

Lemma Object_keys_set_present (o : object) (k : string) (v : value) :
  In k (Object_keys o) -> Object_keys (Object_set o k v) = Object_keys o.
Proof.
  unfold Object_keys. induction o as [|[k0 w] o IH]; simpl; intro H.
  - contradiction.
  - destruct (String.eqb k0 k) eqn:E; simpl; auto.
    f_equal. apply IH. destruct H as [H|H]; auto.
    subst. now rewrite String.eqb_refl in E.
Qed.

Lemma Object_keys_set (o : object) (k : string) (v : value) :
  In k (Object_keys (Object_set o k v)) /\
  forall k', In k' (Object_keys o) -> In k' (Object_keys (Object_set o k v)).
Proof.
  unfold Object_keys. induction o as [|[k0 w] o [IH1 IH2]]; simpl.
  - split; [auto | intros k' []].
  - destruct (String.eqb k0 k) eqn:E; simpl.
    + apply String.eqb_eq in E. subst. split; auto.
    + split; auto. intros k' [H|H]; auto.
Qed.

Lemma Object_set_get (o : object) (k : string) :
  In k (Object_keys o) -> Object_set o k (Object_get o k) = o.
Proof.
  unfold Object_keys. induction o as [|[k0 w] o IH]; simpl; intro H.
  - contradiction.
  - destruct (String.eqb k0 k) eqn:E; auto.
    f_equal. apply IH. destruct H as [H|H]; auto.
    subst. now rewrite String.eqb_refl in E.
Qed.

(** ** The monad *)

Lemma bind_Ok {St A B} (m : M St A) (k : A -> M St B) s a s1 :
  m s = (Ok a, s1) -> bind m k s = k a s1.
Proof. unfold bind. now intros ->. Qed.

Lemma bind_Throw {St A B} (m : M St A) (k : A -> M St B) s e s1 :
  m s = (Throw e, s1) -> bind m k s = (Throw e, s1).
Proof. unfold bind. now intros ->. Qed.

Lemma bind_inv_Ok {St A B} (m : M St A) (k : A -> M St B) s b s2 :
  bind m k s = (Ok b, s2) ->
  exists a s1, m s = (Ok a, s1) /\ k a s1 = (Ok b, s2).
Proof.
  unfold bind. destruct (m s) as [[a|e] s1]; intro H.
  - now exists a, s1.
  - discriminate.
Qed.

(** A counted loop whose body cannot throw returns one element per index. *)
Lemma for_collect_total {St A} (body : nat -> M St A) :
  (forall i s, exists a s', body i s = (Ok a, s')) ->
  forall n i0 s, exists l s',
    for_collect n i0 body s = (Ok l, s') /\ length l = n.
Proof.
  intros Hbody n. induction n as [|n IH]; intros i0 s; simpl.
  - exists [], s. auto.
  - destruct (Hbody i0 s) as (a & s1 & Ha).
    destruct (IH (S i0) s1) as (l & s2 & Hl & Hlen).
    exists (a :: l), s2. split.
    + rewrite (bind_Ok _ _ _ _ _ Ha). now rewrite (bind_Ok _ _ _ _ _ Hl).
    + simpl. now rewrite Hlen.
Qed.

Section Facts.

Context {L : Type} {xgboost : XGBoostWasm L} {env : JSEnv}.

(** *** constructor *)

(** The loop of lines 62-67 throws nothing but the [TypeError] of
    [toString]. *)
Lemma stringify_options_throws (ks : list string) (o : object) (e : exn) :
  stringify_options ks o = Throw e -> exists msg, e = TypeError msg.
Proof.
  revert o. induction ks as [|k ks IH]; intros o; simpl.
  - discriminate.
  - destruct (String.eqb k "iterations"); [apply IH|].
    destruct (Object_get o k); simpl; try apply IH;
      intro H; injection H as <-; eauto.
Qed.

(** After the loop every listed key but ['iterations'] holds the string of
    its former value, and the other properties are as before. *)
Lemma stringify_options_spec (ks : list string) :
  forall o o', stringify_options ks o = Ok o' ->
    (forall k, In k ks -> In k (Object_keys o)) ->
    Object_keys o' = Object_keys o /\
    (forall k, In k ks -> k <> "iterations" ->
       exists s, toString (Object_get o k) = Ok s /\ Object_get o' k = VString s) /\
    (forall k, ~ In k ks \/ k = "iterations" -> Object_get o' k = Object_get o k).
Proof.
  induction ks as [|key ks IH]; intros o o' H Hin; simpl in H.
  - injection H as <-. repeat split; auto. intros k [].
  - assert (Hin' : forall k, In k ks -> In k (Object_keys o))
      by (intros; apply Hin; now right).
    destruct (String.eqb key "iterations") eqn:Eit.
    + apply String.eqb_eq in Eit. subst key.
      destruct (IH _ _ H Hin') as (Hk & Hs & Hu).
      repeat split; auto.
      * intros k [<- | Hk'] Hne; [congruence|]. now apply Hs.
      * intros k [Hni | ->]; apply Hu; auto. left. intro. apply Hni. now right.
    + apply String.eqb_neq in Eit.
      destruct (toString (Object_get o key)) as [s|e] eqn:Ets; [|discriminate].
      assert (Hkeys : Object_keys (Object_set o key (VString s)) = Object_keys o)
        by (apply Object_keys_set_present, Hin; now left).
      destruct (IH _ _ H) as (Hk & Hs & Hu).
      { intros k Hk. rewrite Hkeys. now apply Hin'. }
      split; [congruence|]. split.
      * intros k Hk' Hne.
        destruct (string_dec key k) as [<- | Hkk].
        -- exists s. split; auto.
           destruct (in_dec string_dec key ks) as [Hi|Hni].
           ++ destruct (Hs key Hi Hne) as (s' & Hs1 & Hs2).
              rewrite Object_get_set_same in Hs1. simpl in Hs1. congruence.
           ++ rewrite Hu by now left. apply Object_get_set_same.
        -- destruct Hk' as [-> | Hk']; [congruence|].
           destruct (Hs k Hk' Hne) as (s' & Hs1 & Hs2).
           rewrite Object_get_set_other in Hs1 by auto. eauto.
      * intros k Hcase. rewrite Hu.
        -- destruct (string_dec key k) as [<- | Hkk].
           ++ destruct Hcase as [Hni | ->]; [|congruence].
              exfalso. apply Hni. now left.
           ++ now apply Object_get_set_other.
        -- destruct Hcase as [Hni | ->]; auto. left. intro. apply Hni. now right.
Qed.

(** The fresh-options path: no foreign call, no handle. *)
Lemma constructor_fresh (o : object) (mdl : option Json.t) (w : World L) b w' :
  constructor (OObject o) mdl w = (Ok b, w') ->
  w' = w /\ model b = None /\
  checkLabels b = Some (strict_eq_string (Object_get o "objective") "multi:softmax") /\
  stringify_options (Object_keys (Object_assign defaultOptions o))
    (Object_assign defaultOptions o) = Ok (options b).
Proof.
  unfold constructor, bind, lift_result, ret, throw.
  destruct (stringify_options _ _) as [o'|e]; intro H; inversion H; subst.
  simpl. auto.
Qed.

(** The load path throws an [Error] or a [TypeError], never a [RangeError]. *)
Lemma constructor_load_throws (m : Json.t) (w : World L) e w' :
  constructor OTrue (Some m) w = (Throw e, w') ->
  exists msg, e = Error msg \/ e = TypeError msg.
Proof.
  unfold constructor, bind, foreign, foreign_, memory_write, throw, ret, lift_result.
  cbn.
  destruct (_malloc _ _) as [st1 offset]; cbn.
  destruct (load_model _ _ _) as [st2 h]; cbn.
  destruct (h =? 0)%Z.
  - intro H. inversion H. eauto.
  - destruct (stringify_options _ _) as [o'|e'] eqn:Es; cbn; intro H; inversion H.
    subst. destruct (stringify_options_throws _ _ _ Es) as [msg ->]. eauto.
Qed.

(** *** load *)

(** C5.  A serialized model whose [name] is not ['ml-xgboost'] is refused by
    [load] with the [RangeError] "Invalid model: <name>"; no instance is
    built and the module is not touched. *)
Theorem load_rejects_other_tag (mdl : Json.t) (w : World L) :
  Json.name mdl <> VString "ml-xgboost" ->
  load mdl w = (Throw (RangeError ("Invalid model: " ++ template (Json.name mdl))), w).
Proof.
  intro Hne. unfold load.
  destruct (strict_eq_string (Json.name mdl) "ml-xgboost") eqn:E.
  - apply strict_eq_string_true in E. contradiction.
  - reflexivity.
Qed.

(** With the right tag [load] is the load path of the constructor. *)
Lemma load_accepts_tag (mdl : Json.t) (w : World L) :
  Json.name mdl = VString "ml-xgboost" ->
  load mdl w = constructor OTrue (Some mdl) w.
Proof.
  intro H. unfold load. now rewrite H.
Qed.

(** *** train *)

Lemma set_param_loop (ks : list string) (b : XGBoost) : forall w : World L,
  for_each ks
    (fun variable =>
       if String.eqb variable "iterations" then ret tt
       else
         b <- get_this ;;
         let v := Object_get (options b) variable in
         on_world (foreign_ (Cset_param (model b) variable v)
                     (fun st => set_param st (model b) variable v)))
    (mkSelf b w)
  = (Ok tt,
     mkSelf b
       (mkWorld
          (fold_left (fun st k => set_param st (model b) k (Object_get (options b) k))
             (filter not_iterations ks) (store w))
          (calls w ++ map (fun k => Cset_param (model b) k (Object_get (options b) k))
                        (filter not_iterations ks)))).
Proof.
  induction ks as [|k ks IH]; intro w.
  - simpl. unfold ret. rewrite app_nil_r. now destruct w.
  - assert (Hn : not_iterations k = negb (String.eqb k "iterations")) by reflexivity.
    cbn [for_each filter]. rewrite !Hn.
    destruct (String.eqb k "iterations") eqn:E; cbn [negb].
    + erewrite bind_Ok by reflexivity. apply IH.
    + erewrite bind_Ok.
      2:{ unfold bind, get_this, on_world, foreign_, foreign. cbn.
          reflexivity. }
      rewrite IH. cbn. now rewrite <- app_assoc.
Qed.

(** What a call of [train] does when the matrix is accepted. *)
Lemma train_Ok (ts : list (list float)) (ys : list float) (X : Matrix)
      (b : XGBoost) (w : World L) :
  checkMatrix ts = Ok X ->
  let o := train_options b ys in
  let Xb := Float32_bytes (to1DArray X) in
  let yb := Float32_bytes ys in
  let r := Z.of_nat (rows X) in
  let c := Z.of_nat (columns X) in
  let cm := create_model (store w) Xb yb r c in
  let h := Some (snd cm) in
  call (train ts ys) b w =
  (Ok tt,
   mkXGBoost (checkLabels b) o h,
   mkWorld
     (train_full_model
        (fold_left (fun st k => set_param st h k (Object_get o k)) (forwarded o) (fst cm))
        h (Object_get o "iterations"))
     (calls w ++ [Ccreate_model Xb yb r c]
        ++ map (fun k => Cset_param h k (Object_get o k)) (forwarded o)
        ++ [Ctrain_full_model h (Object_get o "iterations")])).
Proof.
  intros HX o Xb yb r c cm h.
  unfold call, train.
  unfold bind at 1. unfold get_this at 1. cbn [this].
  unfold bind at 1.
  assert (Hfirst :
    (if truthy_flag (checkLabels b)
     then set_this_options
            (Object_set (options b) "num_class"
               (VString (size_toString (Set_size ys))))
     else ret tt) (mkSelf b w)
    = (Ok tt, mkSelf (mkXGBoost (checkLabels b) o (model b)) w)).
  { unfold o, train_options. destruct (truthy_flag (checkLabels b)).
    - reflexivity.
    - unfold ret. now destruct b. }
  rewrite Hfirst.
  unfold bind at 1. rewrite HX. unfold lift_result, ret at 1.
  unfold bind at 1. unfold on_world at 1, foreign at 1. cbn [world store calls this].
  fold Xb yb r c. fold cm. destruct cm as [st1 h1] eqn:Ecm. cbn [fst snd] in *.
  unfold bind at 1. unfold set_this_model. cbn [this world checkLabels options model].
  unfold bind at 1. unfold get_this at 1. cbn [this options].
  unfold bind at 1. rewrite set_param_loop. cbn [model options].
  unfold bind, get_this, on_world, foreign_, foreign. cbn.
  unfold forwarded, h. now rewrite <- !app_assoc.
Qed.

(** What a call of [train] does when the matrix is refused: the error is
    that of the check, nothing was called, and only [options] may differ. *)
Lemma train_Throw (ts : list (list float)) (ys : list float) (e : exn)
      (b : XGBoost) (w : World L) :
  checkMatrix ts = Throw e ->
  call (train ts ys) b w =
  (Throw e, mkXGBoost (checkLabels b) (train_options b ys) (model b), w).
Proof.
  intros HX. unfold call, train.
  unfold bind at 1. unfold get_this at 1. cbn [this].
  unfold bind at 1. unfold train_options.
  destruct (truthy_flag (checkLabels b)).
  - unfold set_this_options. cbn [this world].
    unfold bind. rewrite HX. reflexivity.
  - unfold ret at 1. unfold bind. rewrite HX. cbn. now destruct b.
Qed.

(** *** predict *)

(** The loop of [predict] never throws, keeps the instance and returns one
    number per index. *)
Lemma predict_loop (Xtest : Matrix) (b : XGBoost) (n : nat) :
  forall (i0 : nat) (w : World L),
  exists l w',
    for_collect n i0
      (fun i =>
         let current := getRow Xtest i in
         b <- get_this ;;
         let row := Float32_bytes current in
         let ncols := Z.of_nat (columns Xtest) in
         on_world (foreign (Cpredict_one (model b) row ncols)
                     (fun st => predict_one st (model b) row ncols)))
      (mkSelf b w)
    = (Ok l, mkSelf b w') /\ length l = n.
Proof.
  induction n as [|n IH]; intros i0 w.
  - exists [], w. split; reflexivity.
  - cbn [for_collect].
    destruct (predict_one (store w) (model b) (Float32_bytes (getRow Xtest i0))
                (Z.of_nat (columns Xtest))) as [st1 y] eqn:E.
    destruct (IH (S i0)
                (mkWorld st1
                   (calls w ++ [Cpredict_one (model b) (Float32_bytes (getRow Xtest i0))
                                  (Z.of_nat (columns Xtest))])))
      as (l & w' & Hl & Hlen).
    exists (y :: l), w'. split; [|simpl; now rewrite Hlen].
    erewrite bind_Ok.
    2:{ unfold bind, get_this, on_world, foreign. cbn. rewrite E. reflexivity. }
    erewrite bind_Ok by exact Hl. reflexivity.
Qed.

Lemma predict_Ok (toPredict : list (list float)) (Xtest : Matrix)
      (b : XGBoost) (w : World L) :
  checkMatrix toPredict = Ok Xtest ->
  exists predictions w',
    call (predict toPredict) b w = (Ok predictions, b, w') /\
    length predictions = rows Xtest.
Proof.
  intro HX.
  destruct (predict_loop Xtest b (rows Xtest) 0 w) as (l & w' & Hl & Hlen).
  exists l, w'. split; auto.
  assert (E : predict toPredict (mkSelf b w) = (Ok l, mkSelf b w')).
  { unfold predict. erewrite bind_Ok by (rewrite HX; reflexivity). exact Hl. }
  unfold call. now rewrite E.
Qed.

Lemma predict_Throw (toPredict : list (list float)) (e : exn)
      (b : XGBoost) (w : World L) :
  checkMatrix toPredict = Throw e ->
  call (predict toPredict) b w = (Throw e, b, w).
Proof.
  intro HX. unfold call, predict.
  erewrite bind_Throw by (rewrite HX; reflexivity). reflexivity.
Qed.

(** *** toJSON *)

Lemma memory_read_loop {A} (f : nat -> Store L -> A) (b : XGBoost) (w : World L)
      (n : nat) :
  forall i0,
    for_collect n i0 (fun i => on_world (memory_read (f i))) (mkSelf b w)
    = (Ok (map (fun i => f i (store w)) (seq i0 n)), mkSelf b w).
Proof.
  induction n as [|n IH]; intro i0.
  - reflexivity.
  - cbn [for_collect seq map].
    erewrite bind_Ok by reflexivity.
    erewrite bind_Ok by apply IH. reflexivity.
Qed.

(** Without a model [toJSON] throws before it calls anything. *)
Lemma toJSON_untrained (b : XGBoost) (w : World L) :
  truthy_handle (model b) = false ->
  call toJSON b w = (Throw (Error "No model trained to save"), b, w).
Proof.
  intro H. unfold call, toJSON, bind, get_this. cbn. now rewrite H.
Qed.

Lemma toJSON_save_failed (b : XGBoost) (w : World L) :
  truthy_handle (model b) = true ->
  snd (save_model (store w) (model b)) = (-1)%Z ->
  fst (fst (call toJSON b w))
  = Throw (Error "Error while saving the model, please report this error").
Proof.
  intros H Hs. unfold call, toJSON, bind, get_this, on_world, foreign. cbn.
  rewrite H. cbn.
  destruct (save_model (store w) (model b)) as [st1 size]. cbn in *.
  subst size. reflexivity.
Qed.

Lemma toJSON_negative_size (b : XGBoost) (w : World L) :
  truthy_handle (model b) = true ->
  (snd (save_model (store w) (model b)) < -1)%Z ->
  fst (fst (call toJSON b w)) = Throw (RangeError "Invalid typed array length").
Proof.
  intros H Hs. unfold call, toJSON, bind, get_this, on_world, foreign. cbn.
  rewrite H. cbn.
  destruct (save_model (store w) (model b)) as [st1 size]. cbn in *.
  destruct (size =? -1)%Z eqn:E1; [apply Z.eqb_eq in E1; lia|]. cbn.
  destruct (_malloc st1 size) as [st2 offset]. cbn.
  destruct (size <? 0)%Z eqn:E2; [reflexivity|apply Z.ltb_ge in E2; lia].
Qed.

(** What a successful [toJSON] does: save, allocate, clear, copy the file
    into memory, read it back through the signed view, release. *)
Lemma toJSON_Ok (b : XGBoost) (w : World L) :
  truthy_handle (model b) = true ->
  let sm := save_model (store w) (model b) in
  let size := snd sm in
  (0 <= size)%Z ->
  let ma := _malloc (fst sm) size in
  let offset := snd ma in
  let st3 := get_file_content
               (HEAPU8_set (fst ma) (repeat 0%Z (Z.to_nat size)) offset)
               offset size in
  call toJSON b w =
  (Ok (Json.mk (VString "ml-xgboost")
         (map (fun i => getValue_i8 st3 (offset + Z.of_nat i)%Z)
            (seq 0 (Z.to_nat size)))
         (options b)),
   b,
   mkWorld (_free st3 offset)
     (calls w ++ [Csave_model (model b); Cmalloc size;
                  Cget_file_content offset size; Cfree offset])).
Proof.
  intros H sm size Hsize ma offset st3.
  unfold call, toJSON.
  unfold bind at 1. unfold get_this at 1. cbn [this]. rewrite H. cbn [negb].
  unfold bind at 1. unfold on_world at 1, foreign at 1. cbn [world store calls this].
  fold sm. destruct sm as [st1 size'] eqn:Esm. cbn [fst snd] in *. subst size.
  destruct (size' =? -1)%Z eqn:E1; [apply Z.eqb_eq in E1; lia|].
  unfold bind at 1. unfold on_world at 1, foreign at 1. cbn [world store calls this].
  fold ma. destruct ma as [st2 offset'] eqn:Ema. cbn [fst snd] in *. subst offset.
  destruct (size' <? 0)%Z eqn:E2; [apply Z.ltb_lt in E2; lia|].
  erewrite bind_Ok by reflexivity.
  erewrite bind_Ok by reflexivity.
  erewrite bind_Ok by reflexivity.
  cbn [world store calls this].
  erewrite bind_Ok by apply memory_read_loop.
  erewrite bind_Ok by reflexivity.
  unfold bind, get_this, ret. cbn. fold st3.
  now rewrite <- !app_assoc.
Qed.

(** Every object [toJSON] returns has the fields of lines 138-142. *)
Lemma toJSON_fields (b : XGBoost) (w : World L) j b' w' :
  call toJSON b w = (Ok j, b', w') ->
  Json.name j = VString "ml-xgboost" /\ Json.options j = options b /\ b' = b /\
  truthy_handle (model b) = true /\
  (0 <= snd (save_model (store w) (model b)))%Z.
Proof.
  intro H.
  destruct (truthy_handle (model b)) eqn:Ht.
  2:{ rewrite toJSON_untrained in H by auto. discriminate. }
  destruct (Z.eq_dec (snd (save_model (store w) (model b))) (-1)) as [E|E].
  { pose proof (toJSON_save_failed b w Ht E) as F. rewrite H in F. discriminate. }
  destruct (Z_lt_le_dec (snd (save_model (store w) (model b))) 0) as [Hlt|Hle].
  { assert (Hlt' : (snd (save_model (store w) (model b)) < -1)%Z) by lia.
    pose proof (toJSON_negative_size b w Ht Hlt') as F. rewrite H in F. discriminate. }
  rewrite (toJSON_Ok b w Ht Hle) in H. inversion H. subst. cbn. auto.
Qed.

(** *** The load path of the constructor *)

Lemma constructor_load_Ok (m : Json.t) (w : World L) (o : object) :
  let array := map to_uint8 (Json.model m) in
  let len := Z.of_nat (length array) in
  let ma := _malloc (store w) len in
  let offset := snd ma in
  let lm := load_model (HEAPU8_set (fst ma) array offset) offset len in
  snd lm <> 0%Z ->
  stringify_options (Object_keys (Json.options m)) (Json.options m) = Ok o ->
  constructor OTrue (Some m) w =
  (Ok (mkXGBoost None o (Some (snd lm))),
   mkWorld (_free (fst lm) offset)
     (calls w ++ [Cmalloc len; Cload_model offset len; Cfree offset])).
Proof.
  intros array len ma offset lm Hh Hs.
  unfold constructor. fold array. fold len.
  unfold bind at 1. unfold foreign at 1. fold ma.
  destruct ma as [st1 offset'] eqn:Ema. cbn [fst snd] in *. subst offset.
  unfold bind at 1. unfold memory_write at 1. cbn [store calls].
  unfold bind at 1. unfold foreign at 1. cbn [store calls]. fold lm.
  destruct lm as [st2 h] eqn:Elm. cbn [fst snd] in *.
  unfold bind at 1. unfold foreign_, foreign. cbn [store calls].
  destruct (h =? 0)%Z eqn:E0; [apply Z.eqb_eq in E0; contradiction|].
  unfold bind. rewrite Hs. cbn. now rewrite <- !app_assoc.
Qed.

Lemma constructor_load_options (m : Json.t) (w : World L) b w' :
  constructor OTrue (Some m) w = (Ok b, w') ->
  checkLabels b = None /\
  stringify_options (Object_keys (Json.options m)) (Json.options m) = Ok (options b).
Proof.
  unfold constructor, bind, foreign, foreign_, memory_write, throw, ret, lift_result.
  cbn.
  destruct (_malloc _ _) as [st1 offset]; cbn.
  destruct (load_model _ _ _) as [st2 h]; cbn.
  destruct (h =? 0)%Z; [discriminate|].
  destruct (stringify_options _ _) as [o'|e'] eqn:Es; cbn; intro H; inversion H.
  subst. cbn. auto.
Qed.

(** ** The claims about errors and shapes *)

(** C9.  Every object [toJSON] returns carries the tag [name: 'ml-xgboost'],
    the very string [load] compares with: [load] of that object goes straight
    to the load path of the constructor and never throws the [RangeError] of
    its invalid-model branch. *)
Theorem toJSON_tag_is_the_one_load_accepts
        (b : XGBoost) (w : World L) (j : Json.t) (b' : XGBoost) (w' : World L) :
  call toJSON b w = (Ok j, b', w') ->
  Json.name j = VString "ml-xgboost" /\
  forall w2 : World L,
    load j w2 = constructor OTrue (Some j) w2 /\
    forall msg, fst (load j w2) <> Throw (RangeError msg).
Proof.
  intro H. destruct (toJSON_fields _ _ _ _ _ H) as (Hname & _).
  split; auto. intro w2.
  pose proof (load_accepts_tag j w2 Hname) as Hl. split; auto.
  intros msg Hthrow. rewrite Hl in Hthrow.
  destruct (constructor OTrue (Some j) w2) as [r w3] eqn:Ec. cbn in Hthrow. subst r.
  destruct (constructor_load_throws _ _ _ _ Ec) as (m & [Hm|Hm]); discriminate.
Qed.

(** C8.  On every input the matrix check accepts as a matrix [Xtest],
    [predict] returns an array of numbers with exactly [Xtest.rows] entries
    (and leaves the instance as it was). *)
Theorem predict_returns_one_number_per_row
        (toPredict : list (list float)) (Xtest : Matrix) (b : XGBoost) (w : World L) :
  checkMatrix toPredict = Ok Xtest ->
  exists (predictions : list float) (w' : World L),
    call (predict toPredict) b w = (Ok predictions, b, w') /\
    length predictions = rows Xtest.
Proof.
  intro HX. exact (predict_Ok toPredict Xtest b w HX).
Qed.

(** C4.  On an instance built from options and never trained, [toJSON]
    throws "No model trained to save" before any foreign call, whereas
    [predict] has no such guard: it hands the [undefined] handle to
    [predict_one] for every row and returns the results. *)
Theorem untrained_toJSON_throws_but_predict_returns
        (o : object) (w0 w1 w : World L) (b : XGBoost)
        (toPredict : list (list float)) (Xtest : Matrix) :
  constructor (OObject o) None w0 = (Ok b, w1) ->
  checkMatrix toPredict = Ok Xtest ->
  call toJSON b w = (Throw (Error "No model trained to save"), b, w) /\
  exists (predictions : list float) (w' : World L),
    call (predict toPredict) b w = (Ok predictions, b, w') /\
    length predictions = rows Xtest.
Proof.
  intros Hc HX. destruct (constructor_fresh _ _ _ _ _ Hc) as (_ & Hm & _).
  split.
  - apply toJSON_untrained. now rewrite Hm.
  - exact (predict_Ok toPredict Xtest b w HX).
Qed.


(** C3 (as amended).  A failed [train] has called nothing and leaves the
    model handle and [checkLabels] as they were; the options are those
    before the call, except that an instance with [checkLabels] set has had
    [num_class] written from the labels.  Without [checkLabels] the instance
    is exactly as before. *)
Theorem failed_train_leaves_all_but_num_class
        (trainingSet : list (list float)) (trainingValues : list float)
        (b b' : XGBoost) (w w' : World L) (e : exn) :
  call (train trainingSet trainingValues) b w = (Throw e, b', w') ->
  w' = w /\ model b' = model b /\ checkLabels b' = checkLabels b /\
  options b' = train_options b trainingValues /\
  (truthy_flag (checkLabels b) = false -> b' = b).
Proof.
  intro H. destruct (checkMatrix trainingSet) as [X|e0] eqn:HX.
  - rewrite (train_Ok _ trainingValues _ b w HX) in H. discriminate.
  - rewrite (train_Throw _ trainingValues _ b w HX) in H.
    inversion H. subst. cbn. repeat split; auto.
    intro Hf. unfold train_options. rewrite Hf. now destruct b.
Qed.

(** ** Construction *)

Lemma Object_keys_set_inv (o : object) (k k' : string) (v : value) :
  In k' (Object_keys (Object_set o k v)) -> k' = k \/ In k' (Object_keys o).
Proof.
  unfold Object_keys. induction o as [|[k0 w0] o IH]; simpl.
  - intros [H|[]]. now left.
  - destruct (String.eqb k0 k) eqn:E; simpl.
    + intros [H|H]; auto.
    + intros [H|H]; auto. destruct (IH H); auto.
Qed.






(** The only error of the fresh-options path is the [TypeError] of a
    [toString] on [undefined] or [null]; it leaves the world as it was. *)
Lemma constructor_fresh_throws (o : object) (mdl : option Json.t)
      (w w' : World L) (e : exn) :
  constructor (OObject o) mdl w = (Throw e, w') ->
  w' = w /\ exists msg, e = TypeError msg.
Proof.
  unfold constructor, bind, lift_result, ret, throw.
  destruct (stringify_options _ _) as [o'|e'] eqn:Es; intro H; inversion H; subst.
  split; auto. exact (stringify_options_throws _ _ _ Es).
Qed.


(** ** Options are strings, and train forwards them *)

Lemma constructor_options_strings (opts : ctor_options) (mdl : option Json.t)
      (w w' : World L) (b : XGBoost) :
  constructor opts mdl w = (Ok b, w') ->
  forall k, In k (Object_keys (options b)) -> k <> "iterations" ->
            exists s, Object_get (options b) k = VString s.
Proof.
  intros Hc k Hin Hne.
  assert (Hs : exists o, stringify_options (Object_keys o) o = Ok (options b)).
  { destruct opts as [|o].
    - destruct mdl as [m|]; [|discriminate].
      destruct (constructor_load_options _ _ _ _ Hc) as (_ & Hs). eauto.
    - destruct (constructor_fresh _ _ _ _ _ Hc) as (_ & _ & _ & Hs). eauto. }
  destruct Hs as (o & Hs).
  destruct (stringify_options_spec _ _ _ Hs (fun k H => H)) as (Hk & Hstr & _).
  rewrite Hk in Hin. destruct (Hstr k Hin Hne) as (s & _ & Hg). eauto.
Qed.

(** C10.  After construction by either path every value stored in [options]
    under a key other than ['iterations'] is a string.  A later [train] on an
    accepted matrix succeeds and forwards exactly these values (and the
    string [num_class] it may add) to [set_param], one call per key, between
    [create_model] and the training call. *)
Theorem options_are_strings_and_train_forwards_them
        (opts : ctor_options) (mdl : option Json.t) (w w' : World L) (b : XGBoost) :
  constructor opts mdl w = (Ok b, w') ->
  (forall k, In k (Object_keys (options b)) -> k <> "iterations" ->
             exists s, Object_get (options b) k = VString s) /\
  forall (trainingSet : list (list float)) (trainingValues : list float)
         (X : Matrix) (w1 : World L),
    checkMatrix trainingSet = Ok X ->
    exists (b2 : XGBoost) (w2 : World L) (h : handle) (params : list Call),
      call (train trainingSet trainingValues) b w1 = (Ok tt, b2, w2) /\
      model b2 = h /\
      calls w2 =
        calls w1
          ++ [Ccreate_model (Float32_bytes (to1DArray X))
                (Float32_bytes trainingValues)
                (Z.of_nat (rows X)) (Z.of_nat (columns X))]
          ++ params
          ++ [Ctrain_full_model h (Object_get (options b2) "iterations")] /\
      Permutation params
        (map (fun k => Cset_param h k (Object_get (options b2) k))
             (forwarded (options b2))) /\
      (forall k, In k (forwarded (options b2)) ->
                 exists s, Object_get (options b2) k = VString s) /\
      (forall k, In k (Object_keys (options b)) -> k <> "iterations" ->
                 In k (forwarded (options b2))) /\
      (forall k, k <> "num_class" ->
                 Object_get (options b2) k = Object_get (options b) k).
Proof.
  intro Hc. pose proof (constructor_options_strings _ _ _ _ _ Hc) as Hstr.
  split; [exact Hstr|].
  intros ts ys X w1 HX.
  pose proof (train_Ok ts ys X b w1 HX) as Ht. cbv zeta in Ht.
  eexists. eexists. eexists. eexists.
  split; [exact Ht|]. cbn [model options calls].
  split; [reflexivity|]. split; [reflexivity|].
  split; [apply Permutation_refl|].
  unfold train_options. split; [|split].
  - intros k Hk. unfold forwarded in Hk. apply filter_In in Hk.
    destruct Hk as (Hin & Hni).
    assert (Hne : k <> "iterations").
    { intros ->. unfold not_iterations in Hni. discriminate. }
    destruct (truthy_flag (checkLabels b)); [|now apply Hstr].
    destruct (string_dec k "num_class") as [-> | Hnc].
    + rewrite Object_get_set_same. eauto.
    + rewrite Object_get_set_other by congruence.
      apply Object_keys_set_inv in Hin. destruct Hin as [?|Hin]; [contradiction|].
      now apply Hstr.
  - intros k Hin Hne. unfold forwarded. apply filter_In. split.
    + destruct (truthy_flag (checkLabels b)); auto.
      now apply (proj2 (Object_keys_set (options b) "num_class" _)).
    + unfold not_iterations. apply negb_true_iff. now apply String.eqb_neq.
  - intros k Hnc. destruct (truthy_flag (checkLabels b)); auto.
    apply Object_get_set_other. congruence.
Qed.

(** ** The number of classes *)

Lemma sameValueZero_refl (x : float) : sameValueZero x x = true.
Proof.
  unfold sameValueZero, PrimFloat.is_nan.
  now destruct (PrimFloat.eqb x x).
Qed.

Lemma Set_has_add_old (s : list float) (x y : float) :
  Set_has s y = true -> Set_has (Set_add s x) y = true.
Proof.
  unfold Set_add, Set_has. intro H.
  destruct (existsb (sameValueZero x) s); auto.
  rewrite existsb_app, H. reflexivity.
Qed.

Lemma Set_has_add_new (s : list float) (x : float) :
  Set_has (Set_add s x) x = true.
Proof.
  unfold Set_add. destruct (Set_has s x) eqn:E; auto.
  unfold Set_has. rewrite existsb_app. simpl.
  rewrite sameValueZero_refl. now rewrite orb_true_r.
Qed.

Lemma Set_add_Distinct (s : list float) (x : float) :
  Distinct s -> Distinct (Set_add s x).
Proof.
  intro H. unfold Set_add. destruct (Set_has s x) eqn:E; auto.
  now constructor.
Qed.

Lemma Set_add_In (s : list float) (x y : float) :
  In y (Set_add s x) -> In y s \/ y = x.
Proof.
  unfold Set_add. destruct (Set_has s x); auto.
  intro H. apply in_app_or in H. destruct H as [H|[H|[]]]; auto.
Qed.

(** Inserting a list of numbers into a set, in order. *)
Lemma Set_fold_spec (ys : list float) :
  forall s, Distinct s ->
    Distinct (fold_left Set_add ys s) /\
    (forall y, Set_has s y = true \/ In y ys ->
               Set_has (fold_left Set_add ys s) y = true) /\
    (forall x, In x (fold_left Set_add ys s) -> In x s \/ In x ys).
Proof.
  induction ys as [|y0 ys IH]; intros s Hs; simpl.
  - repeat split; auto. intros y [H|[]]. exact H.
  - destruct (IH (Set_add s y0) (Set_add_Distinct _ _ Hs)) as (Hd & Hc & Hi).
    repeat split; auto.
    + intros y [H | [-> | H]]; apply Hc; auto.
      * left. now apply Set_has_add_old.
      * left. apply Set_has_add_new.
    + intros x H. destruct (Hi x H) as [H'|H']; auto.
      destruct (Set_add_In _ _ _ H') as [? | ->]; auto.
Qed.

(** [new Set(ys)] lists the distinct values of [ys]. *)
Lemma Set_new_distinct_values (ys : list float) :
  distinct_values_of ys (Set_new ys).
Proof.
  destruct (Set_fold_spec ys [] Distinct_nil) as (Hd & Hc & Hi).
  repeat split; auto.
  intros x H. destruct (Hi x H) as [[]|?]; auto.
Qed.

(** An instance built by the load path has no [checkLabels]: its [train]
    leaves [options] as loaded. *)
Lemma loaded_instance_keeps_options (m : Json.t) (w w' : World L) (b : XGBoost)
      (trainingValues : list float) :
  constructor OTrue (Some m) w = (Ok b, w') ->
  train_options b trainingValues = options b.
Proof.
  intro Hc. destruct (constructor_load_options _ _ _ _ Hc) as (Hcl & _).
  unfold train_options. now rewrite Hcl.
Qed.

(** C7.  For an instance constructed with [objective: 'multi:softmax'],
    [train] takes the number of distinct label values (the size of the [Set]
    of the labels), writes it as a string to [options.num_class] before
    anything else, and, when the call succeeds, forwards it with
    [set_param] ahead of the training call. *)
Theorem train_infers_num_class_from_distinct_labels
        (o : object) (mdl : option Json.t) (w0 w1 : World L) (b : XGBoost)
        (trainingSet : list (list float)) (trainingValues : list float)
        (w w' : World L) (r : result unit) (b' : XGBoost) :
  constructor (OObject o) mdl w0 = (Ok b, w1) ->
  Object_get o "objective" = VString "multi:softmax" ->
  call (train trainingSet trainingValues) b w = (r, b', w') ->
  exists classes : list float,
    distinct_values_of trainingValues classes /\
    let num_class := VString (size_toString (length classes)) in
    Object_get (options b') "num_class" = num_class /\
    (r = Ok tt ->
     exists (h : handle) (before after : list Call) (iterations : value),
       calls w' =
         calls w ++ before ++ Cset_param h "num_class" num_class :: after
           ++ [Ctrain_full_model h iterations]).
Proof.
  intros Hc Hobj Ht.
  exists (Set_new trainingValues). split; [apply Set_new_distinct_values|].
  destruct (constructor_fresh _ _ _ _ _ Hc) as (_ & _ & Hcl & _).
  rewrite Hobj in Hcl. cbn in Hcl.
  assert (Ho : train_options b trainingValues
               = Object_set (options b) "num_class"
                   (VString (size_toString (Set_size trainingValues)))).
  { unfold train_options. rewrite Hcl. reflexivity. }
  cbv zeta. fold (Set_size trainingValues).
  destruct (checkMatrix trainingSet) as [X|e] eqn:HX.
  - rewrite (train_Ok _ trainingValues _ b w HX) in Ht. inversion Ht; subst.
    clear Ht. cbn [options calls]. rewrite Ho. split.
    + apply Object_get_set_same.
    + intros _.
      set (o2 := Object_set (options b) "num_class"
                   (VString (size_toString (Set_size trainingValues)))).
      assert (Hin : In "num_class" (forwarded o2)).
      { unfold forwarded. apply filter_In. split; [|reflexivity].
        unfold o2. apply (proj1 (Object_keys_set _ _ _)). }
      destruct (in_split _ _ Hin) as (l1 & l2 & Hsplit).
      set (h := Some (snd (create_model (store w) (Float32_bytes (to1DArray X))
                             (Float32_bytes trainingValues)
                             (Z.of_nat (rows X)) (Z.of_nat (columns X))))).
      set (f := fun k => Cset_param h k (Object_get o2 k)).
      assert (Hf : f "num_class"
                   = Cset_param h "num_class"
                       (VString (size_toString (Set_size trainingValues)))).
      { unfold f, o2. now rewrite Object_get_set_same. }
      exists h,
        (Ccreate_model (Float32_bytes (to1DArray X)) (Float32_bytes trainingValues)
           (Z.of_nat (rows X)) (Z.of_nat (columns X)) :: map f l1),
        (map f l2), (Object_get o2 "iterations").
      rewrite Hsplit, map_app. cbn [map]. rewrite Hf.
      f_equal. cbn [app]. f_equal. now rewrite <- app_assoc.
  - rewrite (train_Throw _ trainingValues _ b w HX) in Ht. inversion Ht; subst.
    cbn [options]. rewrite Ho. split.
    + apply Object_get_set_same.
    + discriminate.
Qed.

End Facts.

(** ** Serialization round trip *)

Lemma to_uint8_to_int8 (z : Z) : (0 <= z < 256)%Z -> to_uint8 (to_int8 z) = z.
Proof.
  unfold to_uint8, to_int8. intro H. Z.div_mod_to_equations. lia.
Qed.

Lemma to_int8_range (z : Z) : (-128 <= to_int8 z < 128)%Z.
Proof.
  unfold to_int8. Z.div_mod_to_equations. lia.
Qed.

Lemma HEAPU8_set_read {L : Type} (st : Store L) (array : list Z) (offset : Z) (i : nat) :
  (i < length array)%nat ->
  HEAP (HEAPU8_set st array offset) (offset + Z.of_nat i)%Z = nth i array 0%Z.
Proof.
  intro H. unfold HEAPU8_set. cbn [HEAP].
  replace ((offset <=? offset + Z.of_nat i)%Z) with true
    by (symmetry; apply Z.leb_le; lia).
  replace ((offset + Z.of_nat i <? offset + Z.of_nat (length array))%Z) with true
    by (symmetry; apply Z.ltb_lt; lia).
  cbn [andb]. f_equal. lia.
Qed.

Lemma map_nth_seq {A B} (f : A -> B) (g : nat -> A) (l : list A) (d : A) :
  (forall i, (i < length l)%nat -> g i = nth i l d) ->
  map (fun i => f (g i)) (seq 0 (length l)) = map f l.
Proof.
  intro H. apply nth_error_ext. intro i.
  destruct (Nat.lt_ge_cases i (length l)) as [Hi|Hi].
  - rewrite nth_error_map, nth_error_map.
    rewrite (nth_error_nth' l d Hi).
    rewrite nth_error_seq.
    replace (i <? length l)%nat with true by (symmetry; now apply Nat.ltb_lt).
    cbn. now rewrite H.
  - rewrite (proj2 (nth_error_None _ _)) by (now rewrite length_map, length_seq).
    now rewrite (proj2 (nth_error_None _ _)) by (now rewrite length_map).
Qed.

Lemma map_id_on {A} (f : A -> A) (l : list A) :
  (forall x, In x l -> f x = x) -> map f l = l.
Proof.
  induction l as [|x l IH]; simpl; intro H; auto.
  rewrite H by auto. now rewrite IH by auto.
Qed.

Section Roundtrip.

Context {L : Type} {xgboost : XGBoostWasm L} {env : JSEnv}.
Context {contract : Faithful xgboost}.

Lemma keeps_refl (st : Store L) : keeps st st.
Proof. intros h t H. exact H. Qed.

Lemma keeps_trans (st1 st2 st3 : Store L) :
  keeps st1 st2 -> keeps st2 st3 -> keeps st1 st3.
Proof. intros H1 H2 h t H. auto. Qed.

(** Under the contract [predict] returns the score of every row. *)
Lemma predict_loop_scores (Xtest : Matrix) (b : XGBoost) (h : Z) (t : ensemble) :
  model b = Some h ->
  forall (n i0 : nat) (w : World L),
    holds (lib (store w)) h t ->
    exists w',
      for_collect n i0
        (fun i =>
           let current := getRow Xtest i in
           b <- get_this ;;
           let row := Float32_bytes current in
           let ncols := Z.of_nat (columns Xtest) in
           on_world (foreign (Cpredict_one (model b) row ncols)
                       (fun st => predict_one st (model b) row ncols)))
        (mkSelf b w)
      = (Ok (map (fun i => score t (Float32_bytes (getRow Xtest i))
                             (Z.of_nat (columns Xtest)))
               (seq i0 n)),
         mkSelf b w') /\
      keeps (store w) (store w').
Proof.
  intros Hm n. induction n as [|n IH]; intros i0 w Hh.
  - exists w. split; [reflexivity|apply keeps_refl].
  - cbn [for_collect seq map].
    pose proof (predict_one_score (store w) h t (Float32_bytes (getRow Xtest i0))
                  (Z.of_nat (columns Xtest)) Hh) as Hscore.
    pose proof (predict_one_keeps (store w) (Some h) (Float32_bytes (getRow Xtest i0))
                  (Z.of_nat (columns Xtest))) as Hkeep.
    destruct (predict_one (store w) (Some h) (Float32_bytes (getRow Xtest i0))
                (Z.of_nat (columns Xtest))) as [st1 y] eqn:E.
    cbn [fst snd] in *. subst y.
    destruct (IH (S i0)
                (mkWorld st1
                   (calls w ++ [Cpredict_one (Some h) (Float32_bytes (getRow Xtest i0))
                                  (Z.of_nat (columns Xtest))])))
      as (w' & Hl & Hk).
    { cbn [store]. now apply Hkeep. }
    exists w'. split.
    + erewrite bind_Ok.
      2:{ unfold bind, get_this, on_world, foreign. cbn. rewrite Hm, E. reflexivity. }
      erewrite bind_Ok by exact Hl. reflexivity.
    + intros h' t' H'. apply Hk. cbn [store]. now apply Hkeep.
Qed.

Lemma predict_scores (toPredict : list (list float)) (Xtest : Matrix)
      (b : XGBoost) (h : Z) (t : ensemble) (w : World L) :
  checkMatrix toPredict = Ok Xtest ->
  model b = Some h ->
  holds (lib (store w)) h t ->
  fst (fst (call (predict toPredict) b w))
  = Ok (map (fun i => score t (Float32_bytes (getRow Xtest i))
                        (Z.of_nat (columns Xtest)))
          (seq 0 (rows Xtest))).
Proof.
  intros HX Hm Hh.
  destruct (predict_loop_scores Xtest b h t Hm (rows Xtest) 0 w Hh) as (w' & Hl & _).
  assert (E : predict toPredict (mkSelf b w)
              = (Ok (map (fun i => score t (Float32_bytes (getRow Xtest i))
                                     (Z.of_nat (columns Xtest)))
                       (seq 0 (rows Xtest))),
                 mkSelf b w')).
  { unfold predict. erewrite bind_Ok by (rewrite HX; reflexivity). exact Hl. }
  unfold call. now rewrite E.
Qed.

(** Two instances whose handles stand for one ensemble predict alike. *)
Lemma predict_same_ensemble (toPredict : list (list float))
      (b1 b2 : XGBoost) (h1 h2 : Z) (t : ensemble) (w1 w2 : World L) :
  model b1 = Some h1 -> holds (lib (store w1)) h1 t ->
  model b2 = Some h2 -> holds (lib (store w2)) h2 t ->
  fst (fst (call (predict toPredict) b1 w1))
  = fst (fst (call (predict toPredict) b2 w2)).
Proof.
  intros Hm1 Hh1 Hm2 Hh2.
  destruct (checkMatrix toPredict) as [X|e] eqn:HX.
  - rewrite (predict_scores _ X b1 h1 t w1 HX Hm1 Hh1).
    now rewrite (predict_scores _ X b2 h2 t w2 HX Hm2 Hh2).
  - now rewrite !(predict_Throw _ e _ _ HX).
Qed.

(** On an object whose values are strings already the loop of lines 62-67
    changes nothing: the instance [load] builds from [toJSON]'s object (whose
    [options] is the very object of the saved instance) has the same
    options. *)
Lemma stringify_options_again (ks : list string) (o : object) :
  (forall k, In k ks -> In k (Object_keys o)) ->
  (forall k, In k (Object_keys o) -> k <> "iterations" ->
             exists s, Object_get o k = VString s) ->
  stringify_options ks o = Ok o.
Proof.
  intros Hin Hstr. induction ks as [|key ks IH]; simpl.
  - reflexivity.
  - assert (Hin' : forall k, In k ks -> In k (Object_keys o))
      by (intros; apply Hin; now right).
    destruct (String.eqb key "iterations") eqn:Eit; [now apply IH|].
    apply String.eqb_neq in Eit.
    pose proof (Hin key (or_introl eq_refl)) as Hkey.
    destruct (Hstr key Hkey Eit) as (s & Hs).
    rewrite Hs. simpl. rewrite <- Hs, Object_set_get by exact Hkey.
    now apply IH.
Qed.

(** A constructed and trained instance has a handle and string options. *)
Lemma trained_instance (opts : ctor_options) (mdl : option Json.t)
      (w0 w0' wa wb : World L) (b0 b : XGBoost)
      (trainingSet : list (list float)) (trainingValues : list float) :
  constructor opts mdl w0 = (Ok b0, w0') ->
  call (train trainingSet trainingValues) b0 wa = (Ok tt, b, wb) ->
  (exists h, model b = Some h) /\
  forall k, In k (Object_keys (options b)) -> k <> "iterations" ->
            exists s, Object_get (options b) k = VString s.
Proof.
  intros Hc Ht.
  pose proof (constructor_options_strings _ _ _ _ _ Hc) as Hstr.
  destruct (checkMatrix trainingSet) as [X|e] eqn:HX.
  2:{ rewrite (train_Throw _ trainingValues _ b0 wa HX) in Ht. discriminate. }
  rewrite (train_Ok _ trainingValues _ b0 wa HX) in Ht. inversion Ht; subst.
  clear Ht. cbn [model options]. split; [eauto|].
  intros k Hin Hne. unfold train_options in *.
  destruct (truthy_flag (checkLabels b0)); [|now apply Hstr].
  destruct (string_dec k "num_class") as [-> | Hnc].
  - rewrite Object_get_set_same. eauto.
  - rewrite Object_get_set_other by congruence.
    apply Object_keys_set_inv in Hin. destruct Hin as [?|Hin]; [contradiction|].
    now apply Hstr.
Qed.

(** The array [toJSON] returns is the saved file read through the signed
    view, and the bytes [load] writes back are the saved file again. *)
Lemma toJSON_then_load (cl : option bool) (o : object) (h : Z) (t : ensemble)
      (w : World L) (j : Json.t) (b1 : XGBoost) (w1 : World L) :
  holds (lib (store w)) h t ->
  (forall k, In k (Object_keys o) -> k <> "iterations" ->
             exists s, Object_get o k = VString s) ->
  call toJSON (mkXGBoost cl o (Some h)) w = (Ok j, b1, w1) ->
  Json.model j = map to_int8 (encode t) /\
  map to_uint8 (Json.model j) = encode t /\
  keeps (store w) (store w1) /\
  exists (w2 : World L) (h' : Z),
    load j w1 = (Ok (mkXGBoost None o (Some h')), w2) /\
    holds (lib (store w2)) h' t /\ keeps (store w1) (store w2).
Proof.
  intros Hh Hstr HJ.
  destruct (toJSON_fields _ _ _ _ _ HJ) as (Hname & Hopt & _ & Htr & Hle).
  rewrite (toJSON_Ok _ w Htr Hle) in HJ. cbn [model options] in *.
  set (sm := save_model (store w) (Some h)) in *.
  set (size := snd sm) in *.
  set (ma := _malloc (fst sm) size) in *.
  set (offset := snd ma) in *.
  set (st2' := HEAPU8_set (fst ma) (repeat 0%Z (Z.to_nat size)) offset) in *.
  set (st3 := get_file_content st2' offset size) in *.
  assert (Hne : size <> (-1)%Z) by lia.
  destruct (save_model_saved (store w) h t Hh Hne) as (Hsize & Hsaved).
  fold sm in Hsize, Hsaved. fold size in Hsize.
  assert (Hsaved2 : saved (lib st2') t).
  { unfold st2'. cbn [lib HEAPU8_set]. now apply malloc_saved. }
  assert (Hbytes : forall i, (i < length (encode t))%nat ->
             HEAP st3 (offset + Z.of_nat i)%Z = nth i (encode t) 0%Z).
  { intros i Hi. unfold st3. rewrite Hsize.
    now apply get_file_content_bytes. }
  assert (Hk1 : keeps (store w) (_free st3 offset)).
  { intros h0 t0 H0. apply free_keeps. unfold st3. apply get_file_content_keeps.
    unfold st2'. cbn [lib HEAPU8_set]. apply malloc_keeps.
    now apply save_model_keeps. }
  injection HJ as Hj Hb1 Hw1. subst j b1 w1.
  cbn [Json.model Json.options Json.name store] in *.
  assert (Hmodel : map (fun i => getValue_i8 st3 (offset + Z.of_nat i)%Z)
                     (seq 0 (Z.to_nat size))
                   = map to_int8 (encode t)).
  { rewrite Hsize, Nat2Z.id. unfold getValue_i8.
    apply (map_nth_seq to_int8 (fun i => HEAP st3 (offset + Z.of_nat i)%Z)
             (encode t) 0%Z Hbytes). }
  rewrite Hmodel.
  assert (Harray : map to_uint8 (map to_int8 (encode t)) = encode t).
  { rewrite map_map. apply map_id_on.
    intros z Hz. apply to_uint8_to_int8. now apply (encode_bytes t). }
  split; [reflexivity|]. split; [exact Harray|].
  split; [exact Hk1|].
  (* the load *)
  pose proof (stringify_options_again (Object_keys o) o (fun k H => H) Hstr)
    as Ho'.
  pose proof (constructor_load_Ok
                (Json.mk (VString "ml-xgboost") (map to_int8 (encode t)) o)
                (mkWorld (_free st3 offset)
                   (calls w ++ [Csave_model (Some h); Cmalloc size;
                                Cget_file_content offset size; Cfree offset])) o)
    as Hload.
  cbv zeta in Hload. cbn [store calls Json.model Json.options] in Hload.
  rewrite Harray in Hload.
  set (len := Z.of_nat (length (encode t))) in *.
  set (mb := _malloc (_free st3 offset) len) in *.
  set (off2 := snd mb) in *.
  set (lm := load_model (HEAPU8_set (fst mb) (encode t) off2) off2 len) in *.
  destruct (load_model_holds (HEAPU8_set (fst mb) (encode t) off2) t off2)
    as (Hnz & Hh').
  { intros i Hi. now apply HEAPU8_set_read. }
  fold len in Hnz, Hh'. fold lm in Hnz, Hh'.
  specialize (Hload Hnz Ho').
  eexists. exists (snd lm).
  rewrite load_accepts_tag by reflexivity.
  split; [exact Hload|]. cbn [store]. split.
  - now apply free_keeps.
  - intros h0 t0 H0. apply free_keeps. unfold lm. apply load_model_keeps.
    cbn [lib HEAPU8_set]. now apply malloc_keeps.
Qed.

(** C1.  Let [m] be a constructed and trained instance whose handle stands
    for an ensemble in the library.  If [m.toJSON()] returns [j], then
    [load(j)] returns an instance whose predictions, on every input, are
    those of [m]: the same array of numbers, or the same error of the matrix
    check.  (The library is held to its contract [Faithful]; the facade
    carries the saved bytes through the signed view and back unchanged.) *)
Theorem load_of_toJSON_predicts_like_the_original
        (opts : ctor_options) (mdl : option Json.t)
        (w0 w0' wa wb : World L) (b0 m : XGBoost)
        (trainingSet : list (list float)) (trainingValues : list float)
        (h : Z) (t : ensemble) (w : World L)
        (j : Json.t) (m1 : XGBoost) (w1 : World L) :
  constructor opts mdl w0 = (Ok b0, w0') ->
  call (train trainingSet trainingValues) b0 wa = (Ok tt, m, wb) ->
  model m = Some h ->
  holds (lib (store w)) h t ->
  call toJSON m w = (Ok j, m1, w1) ->
  exists (m' : XGBoost) (w2 : World L),
    load j w1 = (Ok m', w2) /\
    forall D : list (list float),
      fst (fst (call (predict D) m' w2)) = fst (fst (call (predict D) m w)) /\
      fst (fst (call (predict D) m' w2)) = fst (fst (call (predict D) m w2)).
Proof.
  intros Hc Ht Hm Hh HJ.
  destruct (trained_instance _ _ _ _ _ _ _ _ _ _ Hc Ht) as (_ & Hstr).
  destruct m as [cl o mh]. cbn [model options] in *. subst mh.
  destruct (toJSON_then_load cl o h t w j m1 w1 Hh Hstr HJ)
    as (_ & _ & Hk1 & w2 & h' & Hload & Hh' & Hk2).
  exists (mkXGBoost None o (Some h')), w2. split; [exact Hload|].
  intro D. split.
  - apply (predict_same_ensemble D _ _ h' h t w2 w); auto.
  - apply (predict_same_ensemble D _ _ h' h t w2 w2); auto.
Qed.

End Roundtrip.

(** * The reference module meets the contract *)

Lemma mock_encode_bytes (t : list bool) (b : Z) :
  In b (Mock.encode t) -> (0 <= b < 256)%Z.
Proof.
  unfold Mock.encode. intro H. apply in_map_iff in H.
  destruct H as ([|] & <- & _); lia.
Qed.

Lemma mock_decode_encode (t : list bool) : Mock.decode (Mock.encode t) = t.
Proof.
  unfold Mock.decode, Mock.encode. rewrite map_map.
  apply map_id_on. now intros [|] _.
Qed.

Lemma mock_read_bytes (st : Store Mock.Lib) (offset : Z) (bs : list Z) :
  (forall i, (i < length bs)%nat -> HEAP st (offset + Z.of_nat i)%Z = nth i bs 0%Z) ->
  Mock.read_bytes st offset (Z.of_nat (length bs)) = bs.
Proof.
  intro H. unfold Mock.read_bytes. rewrite Nat2Z.id.
  rewrite <- (map_id bs) at 2.
  apply (map_nth_seq (fun z => z) (fun i => HEAP st (offset + Z.of_nat i)%Z) bs 0%Z H).
Qed.

Lemma mock_lookup_push (st : Store Mock.Lib) (t : list bool) :
  snd (Mock.push st t) <> 0%Z /\
  Mock.lookup (lib (fst (Mock.push st t))) (Some (snd (Mock.push st t))) = Some t /\
  forall h t0, Mock.lookup (lib st) h = Some t0 ->
               Mock.lookup (lib (fst (Mock.push st t))) h = Some t0.
Proof.
  unfold Mock.push, Mock.lookup. cbn [fst snd lib Mock.models].
  split; [lia|]. split.
  - replace (Z.of_nat (length (Mock.models (lib st))) + 1 <=? 0)%Z with false
      by (symmetry; apply Z.leb_gt; lia).
    replace (Z.to_nat (Z.of_nat (length (Mock.models (lib st))) + 1 - 1))
      with (length (Mock.models (lib st))) by lia.
    rewrite nth_error_app2 by lia. now rewrite Nat.sub_diag.
  - intros [z|] t0; [|discriminate].
    destruct (z <=? 0)%Z; [discriminate|]. intro H.
    rewrite nth_error_app1; auto.
    apply nth_error_Some. congruence.
Qed.

#[global] Instance mock_faithful : Faithful Mock.wasm.
Proof.
  refine {|
    ensemble := list bool;
    holds := fun l h t => Mock.lookup l (Some h) = Some t;
    saved := fun l t => Mock.file l = Some t;
    encode := Mock.encode;
    score := Mock.score
  |}.
  - exact mock_encode_bytes.
  - intros st h t row cols H. cbn [predict_one Mock.wasm snd]. now rewrite H.
  - intros st h0 row cols h t H. exact H.
  - intros st h t H _. cbn [save_model Mock.wasm]. rewrite H. cbn [fst snd lib Mock.file].
    split; auto. unfold Mock.encode. now rewrite length_map.
  - intros st h0 h t H. cbn [save_model Mock.wasm].
    now destruct (Mock.lookup (lib st) h0).
  - intros st n h t H. exact H.
  - intros st n t H. exact H.
  - intros st p h t H. exact H.
  - intros st t offset i H Hi. cbn [get_file_content Mock.wasm].
    rewrite H, Nat2Z.id, firstn_all. now apply HEAPU8_set_read.
  - intros st offset size h t H. cbn [get_file_content Mock.wasm].
    now destruct (Mock.file (lib st)).
  - intros st t offset H. cbn [load_model Mock.wasm].
    rewrite (mock_read_bytes st offset (Mock.encode t) H), mock_decode_encode.
    destruct (mock_lookup_push st t) as (H1 & H2 & _). auto.
  - intros st offset size h t H. cbn [load_model Mock.wasm].
    now apply mock_lookup_push.
Defined.

(** * The reference module at work *)

Example to_int8_255 : to_int8 255 = (-1)%Z.
Proof. reflexivity. Qed.

Example to_uint8_minus_1 : to_uint8 (-1) = 255%Z.
Proof. reflexivity. Qed.

Example Set_size_labels : Set_size Mock.labels = 2.
Proof. vm_compute. reflexivity. Qed.

(** [NaN] counts once, and the two zeros are one value. *)
Example Set_size_nan_zero :
  Set_size [PrimFloat.nan; PrimFloat.zero; PrimFloat.nan; PrimFloat.neg_zero] = 2.
Proof. vm_compute. reflexivity. Qed.

#[warnings="-inexact-float"]
Example Number_toString_samples :
  map Mock.Number_toString
    [0.1; 0.5; 200; -2.5; 1e21; 1e-7; 123.456; 0.000001]%float
  = ["0.1"; "0.5"; "200"; "-2.5"; "1e+21"; "1e-7"; "123.456"; "0.000001"].
Proof. vm_compute. reflexivity. Qed.

Example size_toString_12 : size_toString 12 = "12".
Proof. reflexivity. Qed.

Example Object_assign_overrides :
  Object_assign [("a", VNull); ("b", VNull)] [("b", VBoolean true); ("c", VNull)]
  = [("a", VNull); ("b", VBoolean true); ("c", VNull)].
Proof. reflexivity. Qed.

(** * The claims on the reference module *)

Lemma mock_constructor_fresh :
  constructor (OObject Mock.softmax) None Mock.world0 = (Ok Mock.fresh, Mock.world0).
Proof. vm_compute. reflexivity. Qed.

Lemma mock_trained_run :
  call (train Mock.dataset Mock.labels) Mock.fresh Mock.world0
  = (Ok tt, Mock.trained, Mock.world1).
Proof. vm_compute. reflexivity. Qed.

Lemma mock_saved_run :
  call toJSON Mock.trained Mock.world1 = (Ok Mock.json, Mock.trained, Mock.world2).
Proof. vm_compute. reflexivity. Qed.

Lemma mock_holds_trained :
  holds (lib (store Mock.world1)) 1%Z Mock.trained_bits.
Proof. vm_compute. reflexivity. Qed.

(** C1 on the sample run: the instance loaded from [trained.toJSON()]
    predicts like [trained] on every input. *)
Lemma load_of_toJSON_predicts_like_the_original_witness :
  call toJSON Mock.trained Mock.world1 = (Ok Mock.json, Mock.trained, Mock.world2) /\
  exists (m' : XGBoost) (w2 : World Mock.Lib),
    load Mock.json Mock.world2 = (Ok m', w2) /\
    forall D : list (list float),
      fst (fst (call (predict D) m' w2))
      = fst (fst (call (predict D) Mock.trained Mock.world1)) /\
      fst (fst (call (predict D) m' w2))
      = fst (fst (call (predict D) Mock.trained w2)).
Proof.
  split; [exact mock_saved_run|].
  exact (load_of_toJSON_predicts_like_the_original
           (OObject Mock.softmax) None Mock.world0 Mock.world0 Mock.world0 Mock.world1
           Mock.fresh Mock.trained Mock.dataset Mock.labels 1%Z Mock.trained_bits
           Mock.world1 Mock.json Mock.trained Mock.world2
           mock_constructor_fresh mock_trained_run eq_refl
           mock_holds_trained mock_saved_run).
Defined.

(** C5 on a model saved by another library. *)
Lemma load_rejects_other_tag_witness :
  VString "ml-svm" <> VString "ml-xgboost" /\
  load (Json.mk (VString "ml-svm") [1; 2; 3]%Z []) Mock.world0
  = (Throw (RangeError "Invalid model: ml-svm"), Mock.world0).
Proof.
  split; [discriminate|].
  apply (load_rejects_other_tag (Json.mk (VString "ml-svm") [1; 2; 3]%Z []) Mock.world0).
  discriminate.
Defined.

(** C9 on the sample run. *)
Lemma toJSON_tag_is_the_one_load_accepts_witness :
  call toJSON Mock.trained Mock.world1 = (Ok Mock.json, Mock.trained, Mock.world2) /\
  Json.name Mock.json = VString "ml-xgboost" /\
  forall w2 : World Mock.Lib,
    load Mock.json w2 = constructor OTrue (Some Mock.json) w2 /\
    forall msg, fst (load Mock.json w2) <> Throw (RangeError msg).
Proof.
  split; [exact mock_saved_run|].
  exact (toJSON_tag_is_the_one_load_accepts _ _ _ _ _ mock_saved_run).
Defined.

(** C8 on the sample run: three rows in, three numbers out. *)
Lemma predict_returns_one_number_per_row_witness :
  checkMatrix Mock.dataset = Ok (mkMatrix 3 2 Mock.dataset) /\
  exists (predictions : list float) (w' : World Mock.Lib),
    call (predict Mock.dataset) Mock.trained Mock.world1
    = (Ok predictions, Mock.trained, w') /\
    length predictions = 3.
Proof.
  split; [reflexivity|].
  exact (predict_returns_one_number_per_row Mock.dataset (mkMatrix 3 2 Mock.dataset)
           Mock.trained Mock.world1 eq_refl).
Defined.

(** C4 on a fresh instance: [toJSON] throws, [predict] returns. *)
Lemma untrained_toJSON_throws_but_predict_returns_witness :
  constructor (OObject Mock.softmax) None Mock.world0 = (Ok Mock.fresh, Mock.world0) /\
  checkMatrix Mock.dataset = Ok (mkMatrix 3 2 Mock.dataset) /\
  call toJSON Mock.fresh Mock.world0
  = (Throw (Error "No model trained to save"), Mock.fresh, Mock.world0) /\
  exists (predictions : list float) (w' : World Mock.Lib),
    call (predict Mock.dataset) Mock.fresh Mock.world0
    = (Ok predictions, Mock.fresh, w') /\
    length predictions = 3.
Proof.
  split; [exact mock_constructor_fresh|]. split; [reflexivity|].
  exact (untrained_toJSON_throws_but_predict_returns Mock.softmax Mock.world0
           Mock.world0 Mock.world0 Mock.fresh Mock.dataset (mkMatrix 3 2 Mock.dataset)
           mock_constructor_fresh eq_refl).
Defined.



(** C3 refuted: training the multi-class instance on rows of unequal length
    fails in the matrix check, yet [options.num_class] has been written. *)
Lemma failed_train_has_written_num_class :
  Object_get (options Mock.fresh) "num_class" = VUndefined /\
  call (train Mock.ragged Mock.labels) Mock.fresh Mock.world0
  = (Throw (RangeError "Inconsistent array dimensions"),
     mkXGBoost (Some true)
       (Object_set (options Mock.fresh) "num_class" (VString "2"))
       None,
     Mock.world0) /\
  Object_get (Object_set (options Mock.fresh) "num_class" (VString "2")) "num_class"
  = VString "2".
Proof.
  split; [reflexivity|]. split; vm_compute; reflexivity.
Qed.

(** C3 (as amended) on the same failing call. *)
Lemma failed_train_leaves_all_but_num_class_witness :
  call (train Mock.ragged Mock.labels) Mock.fresh Mock.world0
  = (Throw (RangeError "Inconsistent array dimensions"),
     mkXGBoost (Some true)
       (Object_set (options Mock.fresh) "num_class" (VString "2"))
       None,
     Mock.world0) /\
  (Mock.world0 = Mock.world0 /\
   model (mkXGBoost (Some true)
            (Object_set (options Mock.fresh) "num_class" (VString "2")) None)
   = model Mock.fresh /\
   checkLabels (mkXGBoost (Some true)
                  (Object_set (options Mock.fresh) "num_class" (VString "2")) None)
   = checkLabels Mock.fresh /\
   options (mkXGBoost (Some true)
              (Object_set (options Mock.fresh) "num_class" (VString "2")) None)
   = train_options Mock.fresh Mock.labels /\
   (truthy_flag (checkLabels Mock.fresh) = false ->
    mkXGBoost (Some true)
      (Object_set (options Mock.fresh) "num_class" (VString "2")) None
    = Mock.fresh)).
Proof.
  assert (H : call (train Mock.ragged Mock.labels) Mock.fresh Mock.world0
              = (Throw (RangeError "Inconsistent array dimensions"),
                 mkXGBoost (Some true)
                   (Object_set (options Mock.fresh) "num_class" (VString "2"))
                   None,
                 Mock.world0))
    by (vm_compute; reflexivity).
  split; [exact H|].
  exact (failed_train_leaves_all_but_num_class _ _ _ _ _ _ _ H).
Defined.



(** C10 on the sample run: the constructed options are strings, and the
    sample [train] succeeds and forwards them. *)
Lemma options_are_strings_and_train_forwards_them_witness :
  constructor (OObject Mock.softmax) None Mock.world0 = (Ok Mock.fresh, Mock.world0) /\
  checkMatrix Mock.dataset = Ok (mkMatrix 3 2 Mock.dataset) /\
  call (train Mock.dataset Mock.labels) Mock.fresh Mock.world0
  = (Ok tt, Mock.trained, Mock.world1) /\
  (forall k, In k (Object_keys (options Mock.fresh)) -> k <> "iterations" ->
             exists s, Object_get (options Mock.fresh) k = VString s) /\
  exists (b2 : XGBoost) (w2 : World Mock.Lib) (h : handle) (params : list Call),
    call (train Mock.dataset Mock.labels) Mock.fresh Mock.world0 = (Ok tt, b2, w2) /\
    model b2 = h /\
    calls w2 =
      calls Mock.world0
        ++ [Ccreate_model (Float32_bytes (to1DArray (mkMatrix 3 2 Mock.dataset)))
              (Float32_bytes Mock.labels) 3 2]
        ++ params
        ++ [Ctrain_full_model h (Object_get (options b2) "iterations")] /\
    Permutation params
      (map (fun k => Cset_param h k (Object_get (options b2) k))
           (forwarded (options b2))) /\
    (forall k, In k (forwarded (options b2)) ->
               exists s, Object_get (options b2) k = VString s) /\
    (forall k, In k (Object_keys (options Mock.fresh)) -> k <> "iterations" ->
               In k (forwarded (options b2))) /\
    (forall k, k <> "num_class" ->
               Object_get (options b2) k = Object_get (options Mock.fresh) k).
Proof.
  split; [exact mock_constructor_fresh|]. split; [reflexivity|].
  split; [exact mock_trained_run|].
  destruct (options_are_strings_and_train_forwards_them (OObject Mock.softmax) None
              Mock.world0 Mock.world0 Mock.fresh mock_constructor_fresh)
    as (Hstr & Hfwd).
  split; [exact Hstr|].
  exact (Hfwd Mock.dataset Mock.labels (mkMatrix 3 2 Mock.dataset) Mock.world0
           eq_refl).
Defined.

(** What the sample [train] forwarded, call by call. *)
Lemma mock_trained_calls :
  calls Mock.world1 =
  [ Ccreate_model (Float32_bytes (to1DArray (mkMatrix 3 2 Mock.dataset)))
      (Float32_bytes Mock.labels) 3 2;
    Cset_param (Some 1%Z) "booster" (VString "gbtree");
    Cset_param (Some 1%Z) "objective" (VString "multi:softmax");
    Cset_param (Some 1%Z) "max_depth" (VString "5");
    Cset_param (Some 1%Z) "eta" (VString "0.1");
    Cset_param (Some 1%Z) "min_child_weight" (VString "1");
    Cset_param (Some 1%Z) "subsample" (VString "0.5");
    Cset_param (Some 1%Z) "colsample_bytree" (VString "1");
    Cset_param (Some 1%Z) "silent" (VString "1");
    Cset_param (Some 1%Z) "num_class" (VString "2");
    Ctrain_full_model (Some 1%Z) (VNumber 200%float) ].
Proof. vm_compute. reflexivity. Qed.

(** C7 on the sample run: two distinct labels among three. *)
Lemma train_infers_num_class_from_distinct_labels_witness :
  constructor (OObject Mock.softmax) None Mock.world0 = (Ok Mock.fresh, Mock.world0) /\
  Object_get Mock.softmax "objective" = VString "multi:softmax" /\
  call (train Mock.dataset Mock.labels) Mock.fresh Mock.world0
  = (Ok tt, Mock.trained, Mock.world1) /\
  exists classes : list float,
    distinct_values_of Mock.labels classes /\
    let num_class := VString (size_toString (length classes)) in
    Object_get (options Mock.trained) "num_class" = num_class /\
    (Ok tt = Ok tt ->
     exists (h : handle) (before after : list Call) (iterations : value),
       calls Mock.world1 =
         calls Mock.world0 ++ before ++ Cset_param h "num_class" num_class :: after
           ++ [Ctrain_full_model h iterations]).
Proof.
  split; [exact mock_constructor_fresh|]. split; [reflexivity|].
  split; [exact mock_trained_run|].
  exact (train_infers_num_class_from_distinct_labels Mock.softmax None
           Mock.world0 Mock.world0 Mock.fresh Mock.dataset Mock.labels
           Mock.world0 Mock.world1 (Ok tt) Mock.trained
           mock_constructor_fresh eq_refl mock_trained_run).
Defined.

(** * Further properties of the facade *)

Lemma to_int8_to_uint8 (z : Z) : is_int8 z -> to_int8 (to_uint8 z) = z.
Proof.
  unfold is_int8, to_uint8, to_int8. intro H. Z.div_mod_to_equations. lia.
Qed.

Lemma to_uint8_to_int8_mod (z : Z) : to_uint8 (to_int8 z) = (z mod 256)%Z.
Proof.
  unfold to_uint8, to_int8. Z.div_mod_to_equations. lia.
Qed.

Section Extras.

Context {L : Type} {xgboost : XGBoostWasm L} {env : JSEnv}.

(** ** predict *)

Lemma predict_loop_calls (Xtest : Matrix) (b : XGBoost) (n : nat) :
  forall (i0 : nat) (w : World L),
  exists (l : list float) (st' : Store L),
    for_collect n i0
      (fun i =>
         let current := getRow Xtest i in
         b <- get_this ;;
         let row := Float32_bytes current in
         let ncols := Z.of_nat (columns Xtest) in
         on_world (foreign (Cpredict_one (model b) row ncols)
                     (fun st => predict_one st (model b) row ncols)))
      (mkSelf b w)
    = (Ok l,
       mkSelf b
         (mkWorld st'
            (calls w ++
             map (fun i => Cpredict_one (model b) (Float32_bytes (getRow Xtest i))
                             (Z.of_nat (columns Xtest)))
                 (seq i0 n)))) /\
    length l = n.
Proof.
  induction n as [|n IH]; intros i0 w.
  - exists [], (store w). split; [|reflexivity].
    cbn. unfold ret. rewrite app_nil_r. now destruct w.
  - cbn [for_collect seq map].
    destruct (predict_one (store w) (model b) (Float32_bytes (getRow Xtest i0))
                (Z.of_nat (columns Xtest))) as [st1 y] eqn:E.
    destruct (IH (S i0)
                (mkWorld st1
                   (calls w ++ [Cpredict_one (model b) (Float32_bytes (getRow Xtest i0))
                                  (Z.of_nat (columns Xtest))])))
      as (l & st' & Hl & Hlen).
    exists (y :: l), st'. split; [|simpl; now rewrite Hlen].
    erewrite bind_Ok.
    2:{ unfold bind, get_this, on_world, foreign. cbn. rewrite E. reflexivity. }
    erewrite bind_Ok by exact Hl. cbn [calls]. rewrite <- app_assoc. reflexivity.
Qed.

(** X1.  On an accepted matrix [predict] calls [predict_one] once per row, in
    row order, with the bytes of that row and the column count, and calls
    nothing else: no allocation, no release.  The instance is unchanged. *)
Theorem predict_calls_predict_one_once_per_row
        (toPredict : list (list float)) (Xtest : Matrix) (b : XGBoost) (w : World L) :
  checkMatrix toPredict = Ok Xtest ->
  exists (predictions : list float) (st' : Store L),
    call (predict toPredict) b w =
    (Ok predictions, b,
     mkWorld st'
       (calls w ++
        map (fun i => Cpredict_one (model b) (Float32_bytes (getRow Xtest i))
                        (Z.of_nat (columns Xtest)))
            (seq 0 (rows Xtest)))) /\
    length predictions = rows Xtest.
Proof.
  intro HX.
  destruct (predict_loop_calls Xtest b (rows Xtest) 0 w) as (l & st' & Hl & Hlen).
  exists l, st'. split; auto.
  assert (E : predict toPredict (mkSelf b w)
              = (Ok l,
                 mkSelf b
                   (mkWorld st'
                      (calls w ++
                       map (fun i => Cpredict_one (model b)
                                       (Float32_bytes (getRow Xtest i))
                                       (Z.of_nat (columns Xtest)))
                           (seq 0 (rows Xtest)))))).
  { unfold predict. erewrite bind_Ok by (rewrite HX; reflexivity). exact Hl. }
  unfold call. now rewrite E.
Qed.

(** X2.  [predict] throws exactly when the matrix check throws, and then it
    throws that very error, having called nothing and changed nothing. *)
Theorem predict_throws_exactly_the_matrix_error
        (toPredict : list (list float)) (b b' : XGBoost) (w w' : World L) (e : exn) :
  call (predict toPredict) b w = (Throw e, b', w') <->
  checkMatrix toPredict = Throw e /\ b' = b /\ w' = w.
Proof.
  split.
  - intro H. destruct (checkMatrix toPredict) as [X|e0] eqn:HX.
    + destruct (predict_Ok _ X b w HX) as (l & w1 & Hl & _).
      rewrite Hl in H. discriminate.
    + rewrite (predict_Throw _ e0 b w HX) in H. inversion H. subst. auto.
  - intros (HX & -> & ->). now apply predict_Throw.
Qed.

(** ** train *)

(** X3.  [train] throws exactly when the matrix check throws, with that very
    error. *)
Theorem train_throws_exactly_the_matrix_error
        (trainingSet : list (list float)) (trainingValues : list float)
        (b : XGBoost) (w : World L) (e : exn) :
  fst (fst (call (train trainingSet trainingValues) b w)) = Throw e <->
  checkMatrix trainingSet = Throw e.
Proof.
  destruct (checkMatrix trainingSet) as [X|e0] eqn:HX.
  - rewrite (train_Ok _ trainingValues _ b w HX). cbn. split; discriminate.
  - rewrite (train_Throw _ trainingValues _ b w HX). cbn.
    split; intro H; inversion H; reflexivity.
Qed.

(** X4.  Whatever instance it is called on, [train] only calls
    [create_model], [set_param] (never for the key ['iterations']) and the
    training function.  In particular it never calls [free_memory_model]: the
    handle of an earlier training is replaced without being released. *)
Theorem train_never_releases_the_previous_model
        (trainingSet : list (list float)) (trainingValues : list float)
        (b b' : XGBoost) (w w' : World L) (r : result unit) :
  call (train trainingSet trainingValues) b w = (r, b', w') ->
  exists new : list Call,
    calls w' = calls w ++ new /\
    Forall (fun c => train_call c = true) new /\
    ~ In (Cfree_memory_model (model b)) new /\
    (r = Ok tt ->
     exists Xb yb rw cl,
       hd_error new = Some (Ccreate_model Xb yb rw cl) /\
       model b' = Some (snd (create_model (store w) Xb yb rw cl))).
Proof.
  intro H. destruct (checkMatrix trainingSet) as [X|e0] eqn:HX.
  - rewrite (train_Ok _ trainingValues _ b w HX) in H. inversion H; subst. clear H.
    cbn [calls model].
    eexists. split; [reflexivity|].
    assert (HF : Forall (fun c => train_call c = true)
               ([Ccreate_model (Float32_bytes (to1DArray X))
                   (Float32_bytes trainingValues)
                   (Z.of_nat (rows X)) (Z.of_nat (columns X))]
                ++ map (fun k => Cset_param
                          (Some (snd (create_model (store w)
                             (Float32_bytes (to1DArray X))
                             (Float32_bytes trainingValues)
                             (Z.of_nat (rows X)) (Z.of_nat (columns X)))))
                          k (Object_get (train_options b trainingValues) k))
                       (forwarded (train_options b trainingValues))
                ++ [Ctrain_full_model
                      (Some (snd (create_model (store w)
                         (Float32_bytes (to1DArray X))
                         (Float32_bytes trainingValues)
                         (Z.of_nat (rows X)) (Z.of_nat (columns X)))))
                      (Object_get (train_options b trainingValues) "iterations")])).
    { apply Forall_app. split; [repeat constructor|].
      apply Forall_app. split; [|repeat constructor].
      apply Forall_forall. intros c Hc. apply in_map_iff in Hc.
      destruct Hc as (k & <- & Hk). cbn [train_call].
      unfold forwarded in Hk. apply filter_In in Hk. exact (proj2 Hk). }
    split; [exact HF|]. split.
    + intro Hin. rewrite Forall_forall in HF. specialize (HF _ Hin). discriminate.
    + intros _. do 4 eexists. split; reflexivity.
  - rewrite (train_Throw _ trainingValues _ b w HX) in H. inversion H; subst.
    exists []. rewrite app_nil_r. repeat split; auto. discriminate.
Qed.

(** ** toJSON *)

(** X5.  A successful [toJSON] makes four calls: [save_model], [_malloc] of
    the size it returned, [get_file_content] into the block, and [_free] of
    that same block.  The instance is unchanged and its options are the
    [options] of the result. *)
Theorem toJSON_releases_the_block_it_allocates
        (b b' : XGBoost) (w w' : World L) (j : Json.t) :
  call toJSON b w = (Ok j, b', w') ->
  exists size offset : Z,
    size = snd (save_model (store w) (model b)) /\
    offset = snd (_malloc (fst (save_model (store w) (model b))) size) /\
    (0 <= size)%Z /\
    calls w' = calls w ++ [Csave_model (model b); Cmalloc size;
                           Cget_file_content offset size; Cfree offset] /\
    b' = b /\ Json.options j = options b.
Proof.
  intro H.
  destruct (toJSON_fields _ _ _ _ _ H) as (_ & Hopt & Hb & Htr & Hle).
  rewrite (toJSON_Ok b w Htr Hle) in H. injection H as Hj Hb' Hw'.
  subst j b' w'. cbn [calls Json.options].
  do 2 eexists. repeat split; auto.
Qed.

(** X6.  The array [toJSON] returns has one entry per saved byte, each the
    byte read through the signed view, hence between -128 and 127; turning
    it into a [Uint8Array], as [load] does, gives the unsigned bytes back,
    and the signed view of those is the array again. *)
Theorem toJSON_array_is_the_saved_bytes_signed
        (b b' : XGBoost) (w w' : World L) (j : Json.t) :
  call toJSON b w = (Ok j, b', w') ->
  exists (st3 : Store L) (offset : Z) (n : nat),
    store w' = _free st3 offset /\
    Z.of_nat n = snd (save_model (store w) (model b)) /\
    Json.model j = map (fun i => to_int8 (HEAP st3 (offset + Z.of_nat i)%Z)) (seq 0 n) /\
    length (Json.model j) = n /\
    Forall is_int8 (Json.model j) /\
    map to_uint8 (Json.model j)
    = map (fun i => (HEAP st3 (offset + Z.of_nat i) mod 256)%Z) (seq 0 n) /\
    map to_int8 (map to_uint8 (Json.model j)) = Json.model j.
Proof.
  intro H.
  destruct (toJSON_fields _ _ _ _ _ H) as (_ & _ & _ & Htr & Hle).
  rewrite (toJSON_Ok b w Htr Hle) in H. injection H as Hj Hb' Hw'.
  subst j b' w'. cbn [store Json.model].
  do 2 eexists. exists (Z.to_nat (snd (save_model (store w) (model b)))).
  split; [reflexivity|]. split; [now apply Z2Nat.id|].
  unfold getValue_i8. split; [reflexivity|].
  split; [now rewrite length_map, length_seq|]. split.
  - apply Forall_forall. intros z Hz. apply in_map_iff in Hz.
    destruct Hz as (i & <- & _). apply to_int8_range.
  - split.
    + rewrite map_map. apply map_ext. intro i. apply to_uint8_to_int8_mod.
    + rewrite !map_map. apply map_ext. intro i.
      apply to_int8_to_uint8. apply to_int8_range.
Qed.

Lemma toJSON_save_failed_run (b : XGBoost) (w : World L) :
  truthy_handle (model b) = true ->
  snd (save_model (store w) (model b)) = (-1)%Z ->
  call toJSON b w =
  (Throw (Error "Error while saving the model, please report this error"),
   b,
   mkWorld (fst (save_model (store w) (model b)))
     (calls w ++ [Csave_model (model b)])).
Proof.
  intros H Hs. unfold call, toJSON, bind, get_this, on_world, foreign. cbn.
  rewrite H. cbn.
  destruct (save_model (store w) (model b)) as [st1 size]. cbn in *.
  subst size. reflexivity.
Qed.

(** X7.  When [save_model] reports -1, [toJSON] throws its saving error
    right away: [save_model] is the only call made, nothing has been
    allocated, and the instance is unchanged. *)
Theorem toJSON_save_error_allocates_nothing (b : XGBoost) (w : World L) :
  truthy_handle (model b) = true ->
  snd (save_model (store w) (model b)) = (-1)%Z ->
  call toJSON b w =
  (Throw (Error "Error while saving the model, please report this error"),
   b,
   mkWorld (fst (save_model (store w) (model b)))
     (calls w ++ [Csave_model (model b)])).
Proof.
  intros H Hs. exact (toJSON_save_failed_run b w H Hs).
Qed.

(** ** free *)

Lemma toJSON_first_call (b : XGBoost) (w : World L) :
  truthy_handle (model b) = true ->
  exists rest, calls (snd (call toJSON b w)) = calls w ++ Csave_model (model b) :: rest.
Proof.
  intro Ht.
  destruct (Z.eq_dec (snd (save_model (store w) (model b))) (-1)) as [E|E].
  { rewrite (toJSON_save_failed_run b w Ht E). cbn. eauto. }
  destruct (Z_lt_le_dec (snd (save_model (store w) (model b))) 0) as [Hlt|Hle].
  - unfold call, toJSON, bind, get_this, on_world, foreign. cbn.
    rewrite Ht. cbn.
    destruct (save_model (store w) (model b)) as [st1 size]. cbn in *.
    destruct (size =? -1)%Z eqn:E1; [apply Z.eqb_eq in E1; contradiction|]. cbn.
    destruct (_malloc st1 size) as [st2 offset]. cbn.
    destruct (size <? 0)%Z eqn:E2; [|apply Z.ltb_ge in E2; lia].
    cbn. rewrite <- app_assoc. cbn. eauto.
  - rewrite (toJSON_Ok b w Ht Hle). cbn. eauto.
Qed.

(** X8.  [free] passes the handle to [free_memory_model] and leaves
    [this.model] as it is: the instance still looks trained, so a later
    [toJSON] does not throw "No model trained to save" but calls [save_model]
    with the released handle. *)
Theorem free_keeps_the_released_handle (b : XGBoost) (w : World L) :
  truthy_handle (model b) = true ->
  exists w1 : World L,
    call free b w = (Ok tt, b, w1) /\
    calls w1 = calls w ++ [Cfree_memory_model (model b)] /\
    fst (fst (call toJSON b w1)) <> Throw (Error "No model trained to save") /\
    exists rest,
      calls (snd (call toJSON b w1))
      = calls w ++ Cfree_memory_model (model b) :: Csave_model (model b) :: rest.
Proof.
  intro Ht.
  set (w1 := mkWorld (free_memory_model (store w) (model b))
               (calls w ++ [Cfree_memory_model (model b)])).
  exists w1. split; [reflexivity|]. split; [reflexivity|].
  split.
  - destruct (Z.eq_dec (snd (save_model (store w1) (model b))) (-1)) as [E|E].
    { rewrite (toJSON_save_failed_run b w1 Ht E). cbn. discriminate. }
    destruct (Z_lt_le_dec (snd (save_model (store w1) (model b))) 0) as [Hlt|Hle].
    + rewrite (toJSON_negative_size b w1 Ht) by lia. discriminate.
    + rewrite (toJSON_Ok b w1 Ht Hle). cbn. discriminate.
  - destruct (toJSON_first_call b w1 Ht) as (rest & Hr).
    exists rest. rewrite Hr. unfold w1. cbn [calls].
    now rewrite <- app_assoc.
Qed.

(** ** load *)

(** X9.  Once the tag is accepted, [load] makes the same three calls whatever
    the outcome: [_malloc] of the array length, [load_model] on that block
    and length, and [_free] of the block, also when loading fails or the
    options cannot be converted. *)
Theorem load_always_releases_its_buffer (mdl : Json.t) (w : World L) :
  Json.name mdl = VString "ml-xgboost" ->
  let len := Z.of_nat (length (Json.model mdl)) in
  let offset := snd (_malloc (store w) len) in
  calls (snd (load mdl w))
  = calls w ++ [Cmalloc len; Cload_model offset len; Cfree offset].
Proof.
  intros Hname len offset. rewrite (load_accepts_tag mdl w Hname).
  unfold constructor, bind, foreign, foreign_, memory_write, throw, ret, lift_result.
  cbn. rewrite length_map. fold len.
  unfold offset. destruct (_malloc (store w) len) as [st1 off]. cbn.
  destruct (load_model _ _ _) as [st2 h]. cbn.
  destruct (h =? 0)%Z; cbn.
  - now rewrite <- !app_assoc.
  - destruct (stringify_options _ _); cbn; now rewrite <- !app_assoc.
Qed.

(** X10.  When [load_model] returns 0, [load] throws "Error while loading
    the model!": no instance is built, and the block has been released. *)
Theorem load_failure_throws_after_release (mdl : Json.t) (w : World L) :
  Json.name mdl = VString "ml-xgboost" ->
  let array := map to_uint8 (Json.model mdl) in
  let len := Z.of_nat (length array) in
  let ma := _malloc (store w) len in
  let offset := snd ma in
  let lm := load_model (HEAPU8_set (fst ma) array offset) offset len in
  snd lm = 0%Z ->
  load mdl w =
  (Throw (Error "Error while loading the model!"),
   mkWorld (_free (fst lm) offset)
     (calls w ++ [Cmalloc len; Cload_model offset len; Cfree offset])).
Proof.
  intros Hname array len ma offset lm H0.
  rewrite (load_accepts_tag mdl w Hname).
  unfold constructor. fold array. fold len.
  unfold bind at 1. unfold foreign at 1. fold ma.
  destruct ma as [st1 offset'] eqn:Ema. cbn [fst snd] in *. subst offset.
  unfold bind at 1. unfold memory_write at 1. cbn [store calls].
  unfold bind at 1. unfold foreign at 1. cbn [store calls]. fold lm.
  destruct lm as [st2 h] eqn:Elm. cbn [fst snd] in *. subst h.
  unfold bind, foreign_, foreign, throw. cbn. now rewrite <- !app_assoc.
Qed.

Lemma load_Ok_inv (mdl : Json.t) (w w' : World L) (b : XGBoost) :
  load mdl w = (Ok b, w') ->
  Json.name mdl = VString "ml-xgboost" /\
  constructor OTrue (Some mdl) w = (Ok b, w').
Proof.
  intro H.
  assert (Hname : Json.name mdl = VString "ml-xgboost").
  { unfold load in H.
    destruct (strict_eq_string (Json.name mdl) "ml-xgboost") eqn:E.
    - now apply strict_eq_string_true.
    - discriminate. }
  split; auto. now rewrite (load_accepts_tag mdl w Hname) in H.
Qed.

(** X11.  The handle of a loaded instance is the non-zero number
    [load_model] returned for a block that holds, byte for byte, the entries
    of [model.model] modulo 256; the instance has no [checkLabels]. *)
Theorem loaded_handle_comes_from_the_array_bytes
        (mdl : Json.t) (w w' : World L) (b : XGBoost) :
  load mdl w = (Ok b, w') ->
  exists (st : Store L) (offset : Z),
    (forall i, (i < length (Json.model mdl))%nat ->
       HEAP st (offset + Z.of_nat i)%Z = (nth i (Json.model mdl) 0 mod 256)%Z) /\
    model b = Some (snd (load_model st offset (Z.of_nat (length (Json.model mdl))))) /\
    snd (load_model st offset (Z.of_nat (length (Json.model mdl)))) <> 0%Z /\
    checkLabels b = None.
Proof.
  intro Hl. destruct (load_Ok_inv _ _ _ _ Hl) as (_ & H).
  destruct (constructor_load_options _ _ _ _ H) as (Hcl & _).
  exists (HEAPU8_set (fst (_malloc (store w) (Z.of_nat (length (Json.model mdl)))))
            (map to_uint8 (Json.model mdl))
            (snd (_malloc (store w) (Z.of_nat (length (Json.model mdl)))))),
         (snd (_malloc (store w) (Z.of_nat (length (Json.model mdl))))).
  split.
  - intros i Hi. rewrite HEAPU8_set_read by now rewrite length_map.
    exact (map_nth to_uint8 (Json.model mdl) 0%Z i).
  - revert H.
    unfold constructor, bind, foreign, foreign_, memory_write, throw, ret, lift_result.
    cbn. rewrite length_map.
    destruct (_malloc (store w) _) as [st1 off]. cbn.
    destruct (load_model _ _ _) as [st2 h]. cbn.
    destruct (h =? 0)%Z eqn:E0; [discriminate|].
    destruct (stringify_options _ _); cbn; intro H; inversion H; subst.
    cbn. repeat split. now apply Z.eqb_neq.
Qed.

(** X12.  [train] on a loaded instance never writes [num_class], whatever
    its objective and labels: the options stay as they were loaded. *)
Theorem train_on_a_loaded_instance_keeps_num_class
        (mdl : Json.t) (w0 w1 w w' : World L) (b b' : XGBoost)
        (trainingSet : list (list float)) (trainingValues : list float)
        (r : result unit) :
  load mdl w0 = (Ok b, w1) ->
  call (train trainingSet trainingValues) b w = (r, b', w') ->
  options b' = options b /\ checkLabels b' = None.
Proof.
  intros Hl Ht.
  destruct (load_Ok_inv _ _ _ _ Hl) as (_ & Hc).
  destruct (constructor_load_options _ _ _ _ Hc) as (Hcl & _).
  assert (Ho : train_options b trainingValues = options b).
  { unfold train_options. now rewrite Hcl. }
  destruct (checkMatrix trainingSet) as [X|e0] eqn:HX.
  - rewrite (train_Ok _ trainingValues _ b w HX) in Ht. inversion Ht; subst.
    cbn. now rewrite Ho.
  - rewrite (train_Throw _ trainingValues _ b w HX) in Ht. inversion Ht; subst.
    cbn. now rewrite Ho.
Qed.

(** ** constructor *)

Lemma Object_get_absent (o : object) (k : string) :
  ~ In k (Object_keys o) -> Object_get o k = VUndefined.
Proof.
  unfold Object_keys. induction o as [|[k0 v0] o IH]; simpl; intro H; auto.
  destruct (String.eqb k0 k) eqn:E.
  - apply String.eqb_eq in E. exfalso. apply H. now left.
  - apply IH. intro. apply H. now right.
Qed.

Lemma Object_get_assign1_absent (source : object) (k : string) :
  ~ In k (Object_keys source) ->
  forall target, Object_get (Object_assign1 target source) k = Object_get target k.
Proof.
  unfold Object_assign1, Object_keys.
  induction source as [|[k0 v0] source IH]; simpl; intros H target; auto.
  rewrite IH by (intro; apply H; now right).
  apply Object_get_set_other. intro. apply H. now left.
Qed.

Lemma Object_get_assign1_present (source : object) (k : string) :
  NoDup (Object_keys source) -> In k (Object_keys source) ->
  forall target, Object_get (Object_assign1 target source) k = Object_get source k.
Proof.
  unfold Object_assign1, Object_keys.
  induction source as [|[k0 v0] source IH]; simpl; intros Hnd Hin target.
  - contradiction.
  - inversion Hnd as [|? ? Hni Hnd']; subst.
    destruct (String.eqb k0 k) eqn:E.
    + apply String.eqb_eq in E. subst k0.
      pose proof (Object_get_assign1_absent source k Hni
                    (Object_set target k v0)) as Ha.
      unfold Object_assign1 in Ha. rewrite Ha. apply Object_get_set_same.
    + destruct Hin as [->|Hin]; [now rewrite String.eqb_refl in E|].
      now apply IH.
Qed.

Lemma toString_nullish (v : value) :
  (exists s, toString v = Ok s) <-> nullish v = false.
Proof.
  destruct v; simpl; split; intro H; eauto; try discriminate;
    destruct H; discriminate.
Qed.

Lemma stringify_options_total_get (ks : list string) :
  forall o,
    (forall k, In k ks -> In k (Object_keys o)) ->
    (forall k, In k ks -> k <> "iterations" -> nullish (Object_get o k) = false) ->
    exists o', stringify_options ks o = Ok o'.
Proof.
  induction ks as [|key ks IH]; intros o Hin Hd; simpl.
  - eauto.
  - assert (Hin' : forall k, In k ks -> In k (Object_keys o))
      by (intros; apply Hin; now right).
    destruct (String.eqb key "iterations") eqn:Eit.
    + apply IH; auto. intros; apply Hd; auto. now right.
    + apply String.eqb_neq in Eit.
      destruct (proj2 (toString_nullish (Object_get o key))
                  (Hd key (or_introl eq_refl) Eit)) as (s & Hs).
      rewrite Hs.
      assert (Hkeys : Object_keys (Object_set o key (VString s)) = Object_keys o)
        by (apply Object_keys_set_present, Hin; now left).
      apply IH.
      * intros k Hk. rewrite Hkeys. now apply Hin'.
      * intros k Hk Hne. destruct (string_dec key k) as [<- | Hkk].
        -- now rewrite Object_get_set_same.
        -- rewrite Object_get_set_other by auto. apply Hd; auto. now right.
Qed.

(** X13.  Construction from an options object throws exactly when, after
    the defaults are filled in, some key other than ['iterations'] holds
    [undefined] or [null]; the error is then a [TypeError] and the module is
    untouched.  (A [null] under ['iterations'] is accepted.) *)
Theorem constructor_throws_exactly_on_a_nullish_option
        (o : object) (mdl : option Json.t) (w : World L) :
  (exists e w', constructor (OObject o) mdl w = (Throw e, w')) <->
  (exists k, In k (Object_keys (Object_assign defaultOptions o)) /\
             k <> "iterations" /\
             nullish (Object_get (Object_assign defaultOptions o) k) = true).
Proof.
  set (merged := Object_assign defaultOptions o).
  split.
  - intros (e & w' & H).
    destruct (existsb (fun k => not_iterations k && nullish (Object_get merged k))
                (Object_keys merged)) eqn:Ex.
    + apply existsb_exists in Ex. destruct Ex as (k & Hin & Hk).
      apply andb_true_iff in Hk. destruct Hk as (Hni & Hnull).
      exists k. repeat split; auto.
      intros ->. discriminate.
    + exfalso.
      destruct (stringify_options_total_get (Object_keys merged) merged
                  (fun k Hk => Hk)) as (o' & Ho').
      { intros k Hin Hne.
        destruct (nullish (Object_get merged k)) eqn:En; auto.
        assert (Hex : existsb (fun k => not_iterations k
                                        && nullish (Object_get merged k))
                        (Object_keys merged) = true).
        { apply existsb_exists. exists k. split; auto.
          rewrite En, andb_true_r. unfold not_iterations.
          apply negb_true_iff. now apply String.eqb_neq. }
        congruence. }
      unfold constructor, bind in H. fold merged in H. rewrite Ho' in H.
      discriminate.
  - intros (k & Hin & Hne & Hnull).
    destruct (constructor (OObject o) mdl w) as [[b|e] w'] eqn:Hc; [|eauto].
    exfalso.
    destruct (constructor_fresh _ _ _ _ _ Hc) as (_ & _ & _ & Hs).
    destruct (stringify_options_spec _ _ _ Hs (fun k H => H)) as (_ & Hstr & _).
    destruct (Hstr k Hin Hne) as (s & Hts & _).
    fold merged in Hts.
    pose proof (proj1 (toString_nullish _) (ex_intro _ s Hts)). congruence.
Qed.

(** X14.  In a constructed instance every key the caller gave (other than
    ['iterations']) holds the string of the caller's value, and every other
    default key holds the string of its default. *)
Theorem constructor_lets_options_override_defaults
        (o : object) (mdl : option Json.t) (w w' : World L) (b : XGBoost) :
  NoDup (Object_keys o) ->
  constructor (OObject o) mdl w = (Ok b, w') ->
  forall k, k <> "iterations" ->
    (In k (Object_keys o) ->
     exists s, toString (Object_get o k) = Ok s /\
               Object_get (options b) k = VString s) /\
    (~ In k (Object_keys o) -> In k (Object_keys defaultOptions) ->
     exists s, toString (Object_get defaultOptions k) = Ok s /\
               Object_get (options b) k = VString s).
Proof.
  intros Hnd Hc k Hne.
  destruct (constructor_fresh _ _ _ _ _ Hc) as (_ & _ & _ & Hs).
  destruct (stringify_options_spec _ _ _ Hs (fun k H => H)) as (Hk & Hstr & _).
  assert (Hm : Object_assign defaultOptions o = Object_assign1 defaultOptions o)
    by reflexivity.
  split.
  - intro Hin.
    assert (Hin' : In k (Object_keys (Object_assign defaultOptions o))).
    { rewrite Hm. unfold Object_assign1.
      clear - Hin. revert Hin. generalize defaultOptions as t.
      unfold Object_keys. induction o as [|[k0 v0] o IH]; simpl; intros t Hin.
      - contradiction.
      - destruct Hin as [->|Hin]; [|now apply IH].
        clear IH. generalize (proj1 (Object_keys_set t k v0)).
        generalize (Object_set t k v0) as t'. unfold Object_keys.
        induction o as [|[k1 v1] o IH]; simpl; intros t' Ht'; auto.
        apply IH. apply (proj2 (Object_keys_set t' k1 v1)). exact Ht'. }
    destruct (Hstr k Hin' Hne) as (s & Hts & Hg).
    rewrite Hm, (Object_get_assign1_present o k Hnd Hin) in Hts. eauto.
  - intros Hni Hd.
    assert (Hin' : In k (Object_keys (Object_assign defaultOptions o))).
    { rewrite Hm. unfold Object_assign1.
      clear - Hd. revert Hd. generalize defaultOptions as t.
      unfold Object_keys. induction o as [|[k0 v0] o IH]; simpl; intros t Hd; auto.
      apply IH. apply (proj2 (Object_keys_set t k0 v0)). exact Hd. }
    destruct (Hstr k Hin' Hne) as (s & Hts & Hg).
    rewrite Hm, (Object_get_assign1_absent o k Hni) in Hts. eauto.
Qed.

(** X15.  The constructor leaves ['iterations'] unconverted, and [train]
    hands that value, as the last call it makes, to the training function:
    the caller's value if given, the number 200 otherwise. *)
Theorem iterations_reach_training_unconverted
        (o : object) (mdl : option Json.t) (w w' : World L) (b : XGBoost) :
  constructor (OObject o) mdl w = (Ok b, w') ->
  let it := Object_get (Object_assign defaultOptions o) "iterations" in
  Object_get (options b) "iterations" = it /\
  (~ In "iterations" (Object_keys o) -> it = VNumber 200%float) /\
  (NoDup (Object_keys o) -> In "iterations" (Object_keys o) ->
   it = Object_get o "iterations") /\
  forall (trainingSet : list (list float)) (trainingValues : list float)
         (w1 w2 : World L) (b2 : XGBoost),
    call (train trainingSet trainingValues) b w1 = (Ok tt, b2, w2) ->
    exists (before : list Call) (h : handle),
      calls w2 = before ++ [Ctrain_full_model h it].
Proof.
  intros Hc it.
  destruct (constructor_fresh _ _ _ _ _ Hc) as (_ & _ & _ & Hs).
  destruct (stringify_options_spec _ _ _ Hs (fun k H => H)) as (_ & _ & Hu).
  assert (Hit : Object_get (options b) "iterations" = it)
    by (apply Hu; now right).
  assert (Hm : Object_assign defaultOptions o = Object_assign1 defaultOptions o)
    by reflexivity.
  split; [exact Hit|]. split; [|split].
  - intro Hni. unfold it. rewrite Hm, Object_get_assign1_absent by exact Hni.
    reflexivity.
  - intros Hnd Hin. unfold it. rewrite Hm. now apply Object_get_assign1_present.
  - intros ts ys w1 w2 b2 Ht.
    destruct (checkMatrix ts) as [X|e0] eqn:HX.
    2:{ rewrite (train_Throw _ ys _ b w1 HX) in Ht. discriminate. }
    rewrite (train_Ok _ ys _ b w1 HX) in Ht. inversion Ht; subst. clear Ht.
    cbn [calls].
    assert (Hto : Object_get (train_options b ys) "iterations" = it).
    { unfold train_options. destruct (truthy_flag (checkLabels b)); auto.
      rewrite Object_get_set_other by discriminate. exact Hit. }
    rewrite Hto.
    set (h := Some (snd (create_model (store w1) (Float32_bytes (to1DArray X))
                           (Float32_bytes ys)
                           (Z.of_nat (rows X)) (Z.of_nat (columns X))))).
    exists (calls w1 ++
            Ccreate_model (Float32_bytes (to1DArray X)) (Float32_bytes ys)
              (Z.of_nat (rows X)) (Z.of_nat (columns X))
            :: map (fun k => Cset_param h k (Object_get (train_options b ys) k))
                   (forwarded (train_options b ys))), h.
    rewrite <- app_assoc. reflexivity.
Qed.

(** ** The number of classes *)

Lemma Set_add_length (s : list float) (x : float) :
  length (Set_add s x) <= S (length s).
Proof.
  unfold Set_add. destruct (Set_has s x); [lia|].
  rewrite length_app. simpl. lia.
Qed.

Lemma Set_fold_length (ys : list float) :
  forall s, length (fold_left Set_add ys s) <= length s + length ys.
Proof.
  induction ys as [|y ys IH]; intro s; simpl; [lia|].
  specialize (IH (Set_add s y)). pose proof (Set_add_length s y). lia.
Qed.

Lemma Set_size_bounds (ys : list float) :
  Set_size ys <= length ys /\ (ys <> [] -> 1 <= Set_size ys).
Proof.
  unfold Set_size, Set_new. split.
  - exact (Set_fold_length ys []).
  - intro Hne. destruct ys as [|y ys]; [contradiction|].
    destruct (Set_new_distinct_values (y :: ys)) as (_ & Hc & _).
    specialize (Hc y (or_introl eq_refl)). unfold Set_new in Hc.
    destruct (fold_left Set_add (y :: ys) []); [discriminate|simpl; lia].
Qed.

(** X16.  The [num_class] that [train] writes on an instance with
    [checkLabels] is the decimal string of a count between 1 and the number
    of labels, and of 0 when there is no label at all. *)
Theorem num_class_is_at_most_the_number_of_labels
        (b b' : XGBoost) (w w' : World L) (r : result unit)
        (trainingSet : list (list float)) (trainingValues : list float) :
  checkLabels b = Some true ->
  call (train trainingSet trainingValues) b w = (r, b', w') ->
  exists n : nat,
    Object_get (options b') "num_class" = VString (size_toString n) /\
    n <= length trainingValues /\
    (trainingValues <> [] -> 1 <= n) /\
    (trainingValues = [] -> n = 0).
Proof.
  intros Hcl Ht. exists (Set_size trainingValues).
  destruct (Set_size_bounds trainingValues) as (Hle & Hpos).
  assert (Ho : train_options b trainingValues
               = Object_set (options b) "num_class"
                   (VString (size_toString (Set_size trainingValues)))).
  { unfold train_options. now rewrite Hcl. }
  split; [|repeat split; auto; intros ->; reflexivity].
  destruct (checkMatrix trainingSet) as [X|e0] eqn:HX.
  - rewrite (train_Ok _ trainingValues _ b w HX) in Ht. inversion Ht; subst.
    cbn [options]. rewrite Ho. apply Object_get_set_same.
  - rewrite (train_Throw _ trainingValues _ b w HX) in Ht. inversion Ht; subst.
    cbn [options]. rewrite Ho. apply Object_get_set_same.
Qed.

(** ** Saving and loading the options *)

(** X17.  For a constructed and trained instance [m], whenever [load]
    accepts what [m.toJSON()] returned, the loaded instance has exactly the
    options of [m] (and no [checkLabels]). *)
Theorem load_of_toJSON_has_the_same_options
        (opts : ctor_options) (mdl : option Json.t)
        (w0 w0' wa wb w w1 w2 w3 : World L) (b0 m m1 m' : XGBoost)
        (trainingSet : list (list float)) (trainingValues : list float)
        (j : Json.t) :
  constructor opts mdl w0 = (Ok b0, w0') ->
  call (train trainingSet trainingValues) b0 wa = (Ok tt, m, wb) ->
  call toJSON m w = (Ok j, m1, w1) ->
  load j w2 = (Ok m', w3) ->
  options m' = options m /\ checkLabels m' = None.
Proof.
  intros Hc Ht HJ Hl.
  destruct (trained_instance _ _ _ _ _ _ _ _ _ _ Hc Ht) as (_ & Hstr).
  destruct (toJSON_fields _ _ _ _ _ HJ) as (Hname & Hopt & _).
  rewrite (load_accepts_tag j w2 Hname) in Hl.
  destruct (constructor_load_options _ _ _ _ Hl) as (Hcl & Hs).
  rewrite Hopt in Hs.
  rewrite (stringify_options_again (Object_keys (options m)) (options m)
             (fun k H => H) Hstr) in Hs.
  injection Hs as <-. auto.
Qed.

End Extras.

(** * The further properties on the reference module *)

Lemma mock_loaded_run : load Mock.json Mock.world2 = (Ok Mock.loaded, Mock.world3).
Proof. vm_compute. reflexivity. Qed.

(** X1 on the sample run: three rows, three calls of [predict_one]. *)
Lemma predict_calls_predict_one_once_per_row_witness :
  checkMatrix Mock.dataset = Ok (mkMatrix 3 2 Mock.dataset) /\
  exists (predictions : list float) (st' : Store Mock.Lib),
    call (predict Mock.dataset) Mock.trained Mock.world1 =
    (Ok predictions, Mock.trained,
     mkWorld st'
       (calls Mock.world1 ++
        map (fun i => Cpredict_one (model Mock.trained)
                        (Float32_bytes (getRow (mkMatrix 3 2 Mock.dataset) i)) 2)
            (seq 0 3))) /\
    length predictions = 3.
Proof.
  split; [reflexivity|].
  exact (predict_calls_predict_one_once_per_row Mock.dataset
           (mkMatrix 3 2 Mock.dataset) Mock.trained Mock.world1 eq_refl).
Defined.

(** X4 on the sample run, started from the trained instance: the second
    training takes a new handle and releases nothing. *)
Lemma train_never_releases_the_previous_model_witness :
  model Mock.trained = Some 1%Z /\
  exists (b' : XGBoost) (w' : World Mock.Lib) (new : list Call),
    call (train Mock.dataset Mock.labels) Mock.trained Mock.world1 = (Ok tt, b', w') /\
    model b' = Some 2%Z /\
    calls w' = calls Mock.world1 ++ new /\
    Forall (fun c => train_call c = true) new /\
    ~ In (Cfree_memory_model (Some 1%Z)) new.
Proof.
  split; [reflexivity|].
  destruct (call (train Mock.dataset Mock.labels) Mock.trained Mock.world1)
    as [[r b'] w'] eqn:E.
  assert (Hr : r = Ok tt /\ model b' = Some 2%Z).
  { assert (E' : (r, b') = fst (call (train Mock.dataset Mock.labels)
                                  Mock.trained Mock.world1))
      by (now rewrite E).
    vm_compute in E'. injection E' as -> ->. split; reflexivity. }
  destruct Hr as (-> & Hm).
  destruct (train_never_releases_the_previous_model _ _ _ _ _ _ _ E)
    as (new & Hc & HF & Hn & _).
  exists b', w', new. repeat split; auto.
Defined.

(** X5 on the sample run. *)
Lemma toJSON_releases_the_block_it_allocates_witness :
  call toJSON Mock.trained Mock.world1 = (Ok Mock.json, Mock.trained, Mock.world2) /\
  exists size offset : Z,
    size = snd (save_model (store Mock.world1) (model Mock.trained)) /\
    offset = snd (_malloc (fst (save_model (store Mock.world1) (model Mock.trained)))
                    size) /\
    (0 <= size)%Z /\
    calls Mock.world2 =
      calls Mock.world1 ++ [Csave_model (model Mock.trained); Cmalloc size;
                            Cget_file_content offset size; Cfree offset] /\
    Mock.trained = Mock.trained /\ Json.options Mock.json = options Mock.trained.
Proof.
  split; [exact mock_saved_run|].
  exact (toJSON_releases_the_block_it_allocates _ _ _ _ _ mock_saved_run).
Defined.

(** X6 on the sample run: the saved bytes 255 are read as -1. *)
Lemma toJSON_array_is_the_saved_bytes_signed_witness :
  call toJSON Mock.trained Mock.world1 = (Ok Mock.json, Mock.trained, Mock.world2) /\
  Json.model Mock.json = [0; 0; 0; 0; -1; -1; 0; 0; -1; -1; 0; 0]%Z /\
  map to_uint8 (Json.model Mock.json)
  = [0; 0; 0; 0; 255; 255; 0; 0; 255; 255; 0; 0]%Z /\
  Forall is_int8 (Json.model Mock.json) /\
  map to_int8 (map to_uint8 (Json.model Mock.json)) = Json.model Mock.json.
Proof.
  split; [exact mock_saved_run|]. split; [reflexivity|]. split; [reflexivity|].
  destruct (toJSON_array_is_the_saved_bytes_signed _ _ _ _ _ mock_saved_run)
    as (st3 & offset & n & _ & _ & _ & _ & HF & _ & Hback).
  split; [exact HF|exact Hback].
Defined.

(** X7: the trained instance against a library state that does not know its
    handle. *)
Lemma toJSON_save_error_allocates_nothing_witness :
  truthy_handle (model Mock.trained) = true /\
  snd (save_model (store Mock.world0) (model Mock.trained)) = (-1)%Z /\
  call toJSON Mock.trained Mock.world0 =
  (Throw (Error "Error while saving the model, please report this error"),
   Mock.trained,
   mkWorld (fst (save_model (store Mock.world0) (model Mock.trained)))
     (calls Mock.world0 ++ [Csave_model (model Mock.trained)])).
Proof.
  split; [reflexivity|]. split; [reflexivity|].
  exact (toJSON_save_error_allocates_nothing Mock.trained Mock.world0
           eq_refl eq_refl).
Defined.

(** X8 on the trained sample instance. *)
Lemma free_keeps_the_released_handle_witness :
  truthy_handle (model Mock.trained) = true /\
  exists w1 : World Mock.Lib,
    call free Mock.trained Mock.world1 = (Ok tt, Mock.trained, w1) /\
    calls w1 = calls Mock.world1 ++ [Cfree_memory_model (model Mock.trained)] /\
    fst (fst (call toJSON Mock.trained w1))
    <> Throw (Error "No model trained to save") /\
    exists rest,
      calls (snd (call toJSON Mock.trained w1))
      = calls Mock.world1 ++ Cfree_memory_model (model Mock.trained)
          :: Csave_model (model Mock.trained) :: rest.
Proof.
  split; [reflexivity|].
  exact (free_keeps_the_released_handle Mock.trained Mock.world1 eq_refl).
Defined.

(** X9 on the sample object. *)
Lemma load_always_releases_its_buffer_witness :
  Json.name Mock.json = VString "ml-xgboost" /\
  calls (snd (load Mock.json Mock.world2))
  = calls Mock.world2 ++ [Cmalloc 12; Cload_model 20 12; Cfree 20].
Proof.
  split; [reflexivity|].
  exact (load_always_releases_its_buffer Mock.json Mock.world2 eq_refl).
Defined.

(** X10 on a module that refuses to load. *)
Lemma load_failure_throws_after_release_witness :
  Json.name Mock.json = VString "ml-xgboost" /\
  fst (load (xgboost := Mock.refusing) Mock.json Mock.world2)
  = Throw (Error "Error while loading the model!") /\
  calls (snd (load (xgboost := Mock.refusing) Mock.json Mock.world2))
  = calls Mock.world2 ++ [Cmalloc 12; Cload_model 20 12; Cfree 20].
Proof.
  split; [reflexivity|].
  rewrite (load_failure_throws_after_release (xgboost := Mock.refusing)
             Mock.json Mock.world2 eq_refl eq_refl).
  split; reflexivity.
Defined.

(** X11 on the sample object. *)
Lemma loaded_handle_comes_from_the_array_bytes_witness :
  load Mock.json Mock.world2 = (Ok Mock.loaded, Mock.world3) /\
  exists (st : Store Mock.Lib) (offset : Z),
    (forall i, (i < length (Json.model Mock.json))%nat ->
       HEAP st (offset + Z.of_nat i)%Z
       = (nth i (Json.model Mock.json) 0 mod 256)%Z) /\
    model Mock.loaded
    = Some (snd (load_model st offset (Z.of_nat (length (Json.model Mock.json))))) /\
    snd (load_model st offset (Z.of_nat (length (Json.model Mock.json)))) <> 0%Z /\
    checkLabels Mock.loaded = None.
Proof.
  split; [exact mock_loaded_run|].
  exact (loaded_handle_comes_from_the_array_bytes _ _ _ _ mock_loaded_run).
Defined.

(** X12: the loaded multi-class instance trained on labels of three classes
    still says two. *)
Lemma train_on_a_loaded_instance_keeps_num_class_witness :
  load Mock.json Mock.world2 = (Ok Mock.loaded, Mock.world3) /\
  Object_get (options Mock.loaded) "objective" = VString "multi:softmax" /\
  Set_size Mock.three_classes = 3 /\
  exists (b' : XGBoost) (w' : World Mock.Lib),
    call (train Mock.dataset Mock.three_classes) Mock.loaded Mock.world3
    = (Ok tt, b', w') /\
    options b' = options Mock.loaded /\
    Object_get (options b') "num_class" = VString "2".
Proof.
  split; [exact mock_loaded_run|]. split; [reflexivity|].
  split; [vm_compute; reflexivity|].
  destruct (call (train Mock.dataset Mock.three_classes) Mock.loaded Mock.world3)
    as [[r b'] w'] eqn:E.
  assert (Hr : r = Ok tt).
  { assert (E' : r = fst (fst (call (train Mock.dataset Mock.three_classes)
                                 Mock.loaded Mock.world3)))
      by (now rewrite E).
    vm_compute in E'. exact E'. }
  subst r.
  destruct (train_on_a_loaded_instance_keeps_num_class _ _ _ _ _ _ _ _ _ _
              mock_loaded_run E) as (Ho & _).
  exists b', w'. split; [reflexivity|]. split; [exact Ho|].
  rewrite Ho. reflexivity.
Defined.

(** X13 on options with a [null] learning rate. *)
Lemma constructor_throws_on_null_eta :
  constructor (OObject Mock.null_eta) None Mock.world0
  = (Throw (TypeError "Cannot read property 'toString' of null"), Mock.world0) /\
  exists b, constructor (OObject [("iterations", VNull)]) None Mock.world0
            = (Ok b, Mock.world0).
Proof.
  split; [vm_compute; reflexivity|]. eexists. vm_compute. reflexivity.
Qed.

(** X14 on the out-of-range options: the given keys override, the others
    keep their defaults. *)
Lemma constructor_lets_options_override_defaults_witness :
  NoDup (Object_keys Mock.out_of_range) /\
  exists b : XGBoost,
    constructor (OObject Mock.out_of_range) None Mock.world0 = (Ok b, Mock.world0) /\
    (exists s, toString (Object_get Mock.out_of_range "eta") = Ok s /\
               Object_get (options b) "eta" = VString s) /\
    (exists s, toString (Object_get defaultOptions "subsample") = Ok s /\
               Object_get (options b) "subsample" = VString s).
Proof.
  assert (Hnd : NoDup (Object_keys Mock.out_of_range)).
  { repeat constructor; simpl; intuition discriminate. }
  split; [exact Hnd|].
  destruct (constructor (OObject Mock.out_of_range) None Mock.world0)
    as [r w'] eqn:E.
  assert (Hr : exists b, r = Ok b /\ w' = Mock.world0).
  { assert (E' : (r, w') = constructor (OObject Mock.out_of_range) None Mock.world0)
      by (now rewrite E).
    vm_compute in E'. injection E' as -> ->. eexists. split; reflexivity. }
  destruct Hr as (b & -> & ->). exists b. split; [reflexivity|].
  split.
  - apply (proj1 (constructor_lets_options_override_defaults _ _ _ _ _ Hnd E
                    "eta" ltac:(discriminate))).
    simpl. auto.
  - apply (proj2 (constructor_lets_options_override_defaults _ _ _ _ _ Hnd E
                    "subsample" ltac:(discriminate))).
    + simpl. intuition discriminate.
    + simpl. auto 10.
Defined.

(** X15 on the sample instance: the default 200 reaches the training call
    as a number. *)
Lemma iterations_reach_training_unconverted_witness :
  constructor (OObject Mock.softmax) None Mock.world0 = (Ok Mock.fresh, Mock.world0) /\
  Object_get (options Mock.fresh) "iterations" = VNumber 200%float /\
  exists (before : list Call) (h : handle),
    calls Mock.world1 = before ++ [Ctrain_full_model h (VNumber 200%float)].
Proof.
  split; [exact mock_constructor_fresh|].
  destruct (iterations_reach_training_unconverted _ _ _ _ _ mock_constructor_fresh)
    as (Hit & _ & _ & Htrain).
  split; [exact Hit|].
  exact (Htrain _ _ _ _ _ mock_trained_run).
Defined.

(** X16 on the sample run: two classes among three labels. *)
Lemma num_class_is_at_most_the_number_of_labels_witness :
  checkLabels Mock.fresh = Some true /\
  call (train Mock.dataset Mock.labels) Mock.fresh Mock.world0
  = (Ok tt, Mock.trained, Mock.world1) /\
  exists n : nat,
    Object_get (options Mock.trained) "num_class" = VString (size_toString n) /\
    n <= length Mock.labels /\
    (Mock.labels <> [] -> 1 <= n) /\
    (Mock.labels = [] -> n = 0).
Proof.
  split; [reflexivity|]. split; [exact mock_trained_run|].
  exact (num_class_is_at_most_the_number_of_labels Mock.fresh Mock.trained
           Mock.world0 Mock.world1 (Ok tt) Mock.dataset Mock.labels eq_refl
           mock_trained_run).
Defined.

(** X17 on the sample run. *)
Lemma load_of_toJSON_has_the_same_options_witness :
  call toJSON Mock.trained Mock.world1 = (Ok Mock.json, Mock.trained, Mock.world2) /\
  load Mock.json Mock.world2 = (Ok Mock.loaded, Mock.world3) /\
  options Mock.loaded = options Mock.trained /\ checkLabels Mock.loaded = None.
Proof.
  split; [exact mock_saved_run|]. split; [exact mock_loaded_run|].
  exact (load_of_toJSON_has_the_same_options _ _ _ _ _ _ _ _ _ _ _ _ _ _ _ _ _
           mock_constructor_fresh mock_trained_run mock_saved_run mock_loaded_run).
Defined.

(** X2 on rows of unequal length. *)
Lemma predict_throws_exactly_the_matrix_error_witness :
  checkMatrix Mock.ragged = Throw (RangeError "Inconsistent array dimensions") /\
  call (predict Mock.ragged) Mock.trained Mock.world1
  = (Throw (RangeError "Inconsistent array dimensions"), Mock.trained, Mock.world1).
Proof.
  split; [reflexivity|].
  apply (proj2 (predict_throws_exactly_the_matrix_error Mock.ragged
                  Mock.trained Mock.trained Mock.world1 Mock.world1
                  (RangeError "Inconsistent array dimensions"))).
  repeat split; reflexivity.
Defined.

(** X3 on rows of unequal length. *)
Lemma train_throws_exactly_the_matrix_error_witness :
  checkMatrix Mock.ragged = Throw (RangeError "Inconsistent array dimensions") /\
  fst (fst (call (train Mock.ragged Mock.labels) Mock.fresh Mock.world0))
  = Throw (RangeError "Inconsistent array dimensions").
Proof.
  split; [reflexivity|].
  apply (proj2 (train_throws_exactly_the_matrix_error Mock.ragged Mock.labels
                  Mock.fresh Mock.world0
                  (RangeError "Inconsistent array dimensions"))).
  reflexivity.
Defined.

(** X13 on the options with a [null] learning rate. *)
Lemma constructor_throws_exactly_on_a_nullish_option_witness :
  (exists k, In k (Object_keys (Object_assign defaultOptions Mock.null_eta)) /\
             k <> "iterations" /\
             nullish (Object_get (Object_assign defaultOptions Mock.null_eta) k) = true) /\
  exists e w', constructor (OObject Mock.null_eta) None Mock.world0 = (Throw e, w').
Proof.
  assert (H : exists k,
             In k (Object_keys (Object_assign defaultOptions Mock.null_eta)) /\
             k <> "iterations" /\
             nullish (Object_get (Object_assign defaultOptions Mock.null_eta) k) = true).
  { exists "eta". split; [simpl; auto 10|]. split; [discriminate|reflexivity]. }
  split; [exact H|].
  exact (proj2 (constructor_throws_exactly_on_a_nullish_option Mock.null_eta None
                  Mock.world0) H).
Defined.
